(** * VL53L1X distance sensor over WiringPi: a shallow embedding of
      [vl53l1x_wiringpi.c] and the properties of its register shim,
      its start-up sequence and its polling loop. *)

From Stdlib Require Import ZArith List Lia Bool.
From stdpp Require Import gmap.
Import ListNotations.

Local Open Scope Z_scope.

(** ** C integer types

    Values are mathematical integers; every conversion the C program
    performs is written out.  [int] is 32 bits wide on the target; an
    [int] that leaves its range wraps in two's complement, which is what
    gcc (the compiler named in the header of the source) generates for
    [x++] and [x += y]. *)

Definition uint8 (x : Z) : Z := x mod 256.
Definition uint16 (x : Z) : Z := x mod 65536.
Definition INT_MAX : Z := 2147483647.
Definition sint32 (x : Z) : Z := (x + 2147483648) mod 4294967296 - 2147483648.

(** ** Registers (the [#define]s of the source) *)

Definition VL53L1X_ADDRESS : Z := 0x29.

Definition SOFT_RESET : Z := 0x0000.
Definition FIRMWARE_SYSTEM_STATUS : Z := 0x0010.
Definition IDENTIFICATION_MODEL_ID : Z := 0x010F.
Definition SYSTEM_INTERRUPT_CLEAR : Z := 0x0086.
Definition SYSTEM_MODE_START : Z := 0x0087.
Definition GPIO_TIO_HV_STATUS : Z := 0x0031.
Definition RESULT_RANGE_STATUS : Z := 0x0089.
Definition RESULT_DISTANCE : Z := 0x0096.

Definition RANGE_CONFIG_VCSEL_PERIOD_A : Z := 0x0060.
Definition RANGE_CONFIG_VCSEL_PERIOD_B : Z := 0x0063.
Definition RANGE_CONFIG_TIMEOUT_MACROP_A : Z := 0x005E.
Definition RANGE_CONFIG_TIMEOUT_MACROP_B : Z := 0x0061.
Definition RANGE_CONFIG_VALID_PHASE_HIGH : Z := 0x0069.
Definition SYSTEM_INTERRUPT_CONFIG_GPIO : Z := 0x0046.

(** ** The bus collaborator

    The three WiringPi calls the program makes on an open handle.  A
    bus is any state type with these operations; the results of the two
    write calls are ignored by the program, so they only yield the next
    state.  [wiringPiI2CRead] yields an [int]. *)

Class I2C (B : Type) := {
  wiringPiI2CWriteReg8 : Z -> Z -> Z -> B -> B;
  wiringPiI2CWrite : Z -> Z -> B -> B;
  wiringPiI2CRead : Z -> B -> Z * B
}.

(** ** Console output

    One constructor per [printf] call site, carrying the arguments of
    its format; the rendering of the text (and the wall-clock time of the
    sample line) is left to the C library. *)

Inductive printf_call : Type :=
| P_init_start
| P_sensor_found (model_id : Z)
| P_unknown_sensor (model_id : Z)
| P_wait_firmware
| P_firmware_loaded (attempt : Z)
| P_firmware_timeout
| P_sensor_ready
| P_sample (count distance : Z)
| P_bar_open
| P_bar
| P_very_close
| P_close
| P_newline
| P_banner_rule
| P_banner_title
| P_wiringpi_error
| P_i2c_open_error
| P_checklist (line : nat)
| P_i2c_opened (fd : Z)
| P_init_error
| P_start_header
| P_start_rule
| P_waiting (errors : Z).

(** ** The world the program runs in: the bus behind the handle, what
    has been printed so far (oldest first) and the time spent in
    [usleep], in microseconds. *)

Record World (B : Type) : Type := mkWorld {
  bus : B;
  console : list printf_call;
  slept : Z
}.
Arguments mkWorld {B} _ _ _.
Arguments bus {B} _.
Arguments console {B} _.
Arguments slept {B} _.

Definition prog (B A : Type) : Type := World B -> A * World B.

Definition ret {B A} (a : A) : prog B A := fun w => (a, w).

Definition bind {B A C} (m : prog B A) (k : A -> prog B C) : prog B C :=
  fun w => let (a, w') := m w in k a w'.

Declare Scope prog_scope.
Delimit Scope prog_scope with prog.
Notation "'let*' x ':=' m 'in' k" := (bind m (fun x => k))
  (at level 10, x name, m at level 100, k at level 200) : prog_scope.
Notation "m ';;;' k" := (bind m (fun _ => k))
  (at level 100, k at level 200, right associativity) : prog_scope.
Local Open Scope prog_scope.

Section Program.

Context {B : Type} `{I2C B}.

Definition printf (p : printf_call) : prog B unit :=
  fun w => (tt, mkWorld (bus w) (console w ++ [p]) (slept w)).

Definition usleep (us : Z) : prog B unit :=
  fun w => (tt, mkWorld (bus w) (console w) (slept w + us)).

Definition i2cWriteReg8 (fd reg data : Z) : prog B unit :=
  fun w => (tt, mkWorld (wiringPiI2CWriteReg8 fd reg data (bus w)) (console w) (slept w)).

Definition i2cWrite (fd data : Z) : prog B unit :=
  fun w => (tt, mkWorld (wiringPiI2CWrite fd data (bus w)) (console w) (slept w)).

Definition i2cRead (fd : Z) : prog B Z :=
  fun w => let (r, b) := wiringPiI2CRead fd (bus w) in
           (r, mkWorld b (console w) (slept w)).

(** ** Register access shim *)

Definition writeReg8 (fd reg value : Z) : prog B unit :=
  let reg := uint16 reg in
  let value := uint8 value in
  i2cWriteReg8 fd (Z.land (Z.shiftr reg 8) 0xFF) (Z.land reg 0xFF) ;;;
  i2cWrite fd value.

Definition writeReg16 (fd reg value : Z) : prog B unit :=
  let reg := uint16 reg in
  let value := uint16 value in
  i2cWriteReg8 fd (Z.land (Z.shiftr reg 8) 0xFF) (Z.land reg 0xFF) ;;;
  i2cWrite fd (Z.land (Z.shiftr value 8) 0xFF) ;;;
  i2cWrite fd (Z.land value 0xFF).

Definition readReg8 (fd reg : Z) : prog B Z :=
  let reg := uint16 reg in
  i2cWriteReg8 fd (Z.land (Z.shiftr reg 8) 0xFF) (Z.land reg 0xFF) ;;;
  let* r := i2cRead fd in
  ret (uint8 (Z.land r 0xFF)).

Definition readReg16 (fd reg : Z) : prog B Z :=
  let reg := uint16 reg in
  i2cWriteReg8 fd (Z.land (Z.shiftr reg 8) 0xFF) (Z.land reg 0xFF) ;;;
  let* r1 := i2cRead fd in
  let high := uint8 (Z.land r1 0xFF) in
  let* r2 := i2cRead fd in
  let low := uint8 (Z.land r2 0xFF) in
  ret (uint16 (Z.lor (Z.shiftl high 8) low)).

(** ** Ranging sequencer *)

(** The firmware wait, [for (i = 0; i < 100; i++)]: [n] is the number
    of iterations still allowed, [i] the loop counter.  The result is
    the value of [i] when the loop is left. *)
Fixpoint await_firmware (fd : Z) (n : nat) (i : Z) : prog B Z :=
  match n with
  | O => ret i
  | S n' =>
      let* s := readReg8 fd FIRMWARE_SYSTEM_STATUS in
      if negb (Z.land s 0x01 =? 0) then
        printf (P_firmware_loaded (sint32 (i + 1))) ;;;
        ret i
      else
        usleep 10000 ;;;
        await_firmware fd n' (sint32 (i + 1))
  end.

Definition initSensor (fd : Z) : prog B Z :=
  printf P_init_start ;;;
  let* model_id := readReg16 fd IDENTIFICATION_MODEL_ID in
  if model_id =? 0xEACC then
    printf (P_sensor_found model_id) ;;;
    writeReg8 fd SOFT_RESET 0x00 ;;;
    usleep 10000 ;;;
    writeReg8 fd SOFT_RESET 0x01 ;;;
    usleep 10000 ;;;
    printf P_wait_firmware ;;;
    let* i := await_firmware fd 100 0 in
    if i >=? 100 then
      printf P_firmware_timeout ;;;
      ret (-1)
    else
      writeReg8 fd RANGE_CONFIG_VCSEL_PERIOD_A 0x09 ;;;
      writeReg8 fd RANGE_CONFIG_VCSEL_PERIOD_B 0x0D ;;;
      writeReg8 fd RANGE_CONFIG_VALID_PHASE_HIGH 0xC8 ;;;
      writeReg16 fd RANGE_CONFIG_TIMEOUT_MACROP_A 0x00D6 ;;;
      writeReg16 fd RANGE_CONFIG_TIMEOUT_MACROP_B 0x00D6 ;;;
      writeReg8 fd SYSTEM_INTERRUPT_CONFIG_GPIO 0x01 ;;;
      writeReg8 fd SYSTEM_INTERRUPT_CLEAR 0x01 ;;;
      printf P_sensor_ready ;;;
      ret 0
  else
    printf (P_unknown_sensor model_id) ;;;
    ret (-1).

Definition startRanging (fd : Z) : prog B unit :=
  writeReg8 fd SYSTEM_INTERRUPT_CLEAR 0x01 ;;;
  writeReg8 fd SYSTEM_MODE_START 0x40 ;;;
  usleep 50000.

Definition stopRanging (fd : Z) : prog B unit :=
  writeReg8 fd SYSTEM_MODE_START 0x00.

Definition getDistance (fd : Z) : prog B Z :=
  let* gpio_status := readReg8 fd GPIO_TIO_HV_STATUS in
  if Z.land gpio_status 0x01 =? 0 then
    ret (-1)
  else
    let* range_status := readReg8 fd RESULT_RANGE_STATUS in
    let* distance := readReg16 fd RESULT_DISTANCE in
    writeReg8 fd SYSTEM_INTERRUPT_CLEAR 0x01 ;;;
    if (distance >? 0) && (distance <? 8000) then
      if Z.land (Z.shiftr range_status 4) 0x0F =? 0 then
        ret distance
      else ret (-1)
    else ret (-1).

(** The bar loop, [for (i = 0; i < bars; i++) printf("█")]. *)
Fixpoint print_bars (n : nat) : prog B unit :=
  match n with
  | O => ret tt
  | S n' => printf P_bar ;;; print_bars n'
  end.

Definition printDistance (distance count : Z) : prog B unit :=
  printf (P_sample count distance) ;;;
  let bars := Z.quot distance 100 in
  let bars := if bars >? 40 then 40 else bars in
  printf P_bar_open ;;;
  print_bars (Z.to_nat bars) ;;;
  (if distance <? 100 then printf P_very_close
   else if distance <? 300 then printf P_close
   else ret tt) ;;;
  printf P_newline.

(** The accumulators of [main]. *)
Record Stats : Type := mkStats {
  count : Z;
  errors : Z;
  sum : Z;
  min_dist : Z;
  max_dist : Z
}.

Definition initial_stats : Stats := mkStats 0 0 0 9999 0.

(** One turn of [while (1)]. *)
Definition loop_body (fd : Z) (st : Stats) : prog B Stats :=
  let* distance := getDistance fd in
  let* st' :=
    if distance >? 0 then
      let count' := sint32 (count st + 1) in
      let sum' := sint32 (sum st + distance) in
      let min' := if distance <? min_dist st then distance else min_dist st in
      let max' := if distance >? max_dist st then distance else max_dist st in
      printDistance distance count' ;;;
      ret (mkStats count' (errors st) sum' min' max')
    else
      let errors' := sint32 (errors st + 1) in
      (if Z.rem errors' 20 =? 0 then printf (P_waiting errors') else ret tt) ;;;
      ret (mkStats (count st) errors' (sum st) (min_dist st) (max_dist st))
  in
  usleep 50000 ;;;
  ret st'.

(** The first [n] turns of the loop. *)
Fixpoint main_loop (fd : Z) (n : nat) (st : Stats) : prog B Stats :=
  match n with
  | O => ret st
  | S n' => let* st' := loop_body fd st in main_loop fd n' st'
  end.

Fixpoint print_checklist (lines : list nat) : prog B unit :=
  match lines with
  | [] => ret tt
  | l :: rest => printf (P_checklist l) ;;; print_checklist rest
  end.

(** [main], given what [wiringPiSetup()] and [wiringPiI2CSetup(0x29)]
    return.  The loop has no exit: [inl code] is the exit status of a
    failed start-up, [inr st] the accumulators after [n] turns of the
    loop. *)
Definition main (setup_result open_result : Z) (n : nat) : prog B (Z + Stats) :=
  printf P_banner_rule ;;;
  printf P_banner_title ;;;
  printf P_banner_rule ;;;
  if setup_result =? -1 then
    printf P_wiringpi_error ;;;
    ret (inl 1)
  else
    let fd := open_result in
    if fd =? -1 then
      printf P_i2c_open_error ;;;
      print_checklist (seq 1 10) ;;;
      ret (inl 1)
    else
      printf (P_i2c_opened fd) ;;;
      let* rc := initSensor fd in
      if negb (rc =? 0) then
        printf P_init_error ;;;
        ret (inl 1)
      else
        startRanging fd ;;;
        printf P_start_header ;;;
        printf P_start_rule ;;;
        let* st := main_loop fd n initial_stats in
        ret (inr st).

End Program.

(** ** Test doubles for the bus *)

(** *** A bus that records every call made on it *)

Inductive bus_call : Type :=
| CallWriteReg8 (reg data : Z)
| CallWrite (data : Z)
| CallRead (result : Z).

Record Traced (B : Type) : Type := mkTraced {
  inner : B;
  calls : list bus_call
}.
Arguments mkTraced {B} _ _.
Arguments inner {B} _.
Arguments calls {B} _.

#[export] Instance Traced_I2C {B : Type} `{I2C B} : I2C (Traced B) := {
  wiringPiI2CWriteReg8 fd reg data t :=
    mkTraced (wiringPiI2CWriteReg8 fd reg data (inner t))
             (calls t ++ [CallWriteReg8 reg data]);
  wiringPiI2CWrite fd data t :=
    mkTraced (wiringPiI2CWrite fd data (inner t)) (calls t ++ [CallWrite data]);
  wiringPiI2CRead fd t :=
    let (r, b) := wiringPiI2CRead fd (inner t) in
    (r, mkTraced b (calls t ++ [CallRead r]))
}.

(** *** A scripted bus: successive reads are answered from a list; when
    the list is used up a read fails the way [wiringPiI2CRead] does, with
    [-1].  Writes are accepted and ignored. *)

Record Script : Type := mkScript { pending : list Z }.

#[export] Instance Script_I2C : I2C Script := {
  wiringPiI2CWriteReg8 _ _ _ s := s;
  wiringPiI2CWrite _ _ s := s;
  wiringPiI2CRead _ s :=
    match pending s with
    | [] => (-1, s)
    | r :: rest => (r, mkScript rest)
    end
}.

(** *** A register file

    Modelled from the spec: the mock register file of the round-trip
    property; the repository has no test double of its own.  The
    address-phase call sets a 16-bit register index from its two bytes;
    every data byte written or read goes to the indexed cell and moves the
    index on by one.  A cell never written reads as 0. *)

Record RegFile : Type := mkRegFile {
  pointer : Z;
  cells : gmap Z Z
}.

#[export] Instance RegFile_I2C : I2C RegFile := {
  wiringPiI2CWriteReg8 _ reg data rf :=
    mkRegFile (uint8 reg * 256 + uint8 data) (cells rf);
  wiringPiI2CWrite _ data rf :=
    mkRegFile (uint16 (pointer rf + 1)) (<[pointer rf := uint8 data]> (cells rf));
  wiringPiI2CRead _ rf :=
    (default 0 (cells rf !! pointer rf),
     mkRegFile (uint16 (pointer rf + 1)) (cells rf))
}.

(** A world around a bus, with nothing printed and no time spent. *)
Definition fresh {B : Type} (b : B) : World B := mkWorld b [] 0.

(** *** Reading a log of calls *)

(** The address-phase call that selects register [reg]. *)
Definition select (reg : Z) : bus_call :=
  CallWriteReg8 (Z.land (Z.shiftr reg 8) 0xFF) (Z.land reg 0xFF).

Definition bus_call_eqb (a b : bus_call) : bool :=
  match a, b with
  | CallWriteReg8 r d, CallWriteReg8 r' d' => (r =? r') && (d =? d')
  | CallWrite d, CallWrite d' => d =? d'
  | CallRead r, CallRead r' => r =? r'
  | _, _ => false
  end.

(** How many times register [reg] is selected in a log. *)
Definition selections (reg : Z) (log : list bus_call) : nat :=
  length (List.filter (fun c => bus_call_eqb c (select reg)) log).

(** How many times the byte [value] is written to register [reg]: the
    selection of [reg] directly followed by the data byte. *)
Fixpoint reg8_writes (reg value : Z) (log : list bus_call) : nat :=
  match log with
  | [] => O
  | c :: rest =>
      let hit :=
        match rest with
        | CallWrite d :: _ =>
            if bus_call_eqb c (select reg) && (d =? value) then 1%nat else 0%nat
        | _ => 0%nat
        end in
      (hit + reg8_writes reg value rest)%nat
  end.

(** A fresh world around a scripted bus that records its calls. *)
Definition script_world (answers : list Z) : World (Traced Script) :=
  fresh (mkTraced (mkScript answers) []).

(** The answers of the bus in a cycle that finds data ready: the GPIO
    status, the range status and the two bytes of the distance. *)
Definition sample_answers (g s dist : Z) : list Z :=
  [g; s; Z.land (Z.shiftr dist 8) 0xFF; Z.land dist 0xFF].

(** The answer of the bus in a cycle that finds no data. *)
Definition idle_answers (g : Z) : list Z := [g].

(** *** Observing the polling loop *)

(** What [getDistance] returned in each of the first [n] turns. *)
Fixpoint readings {B : Type} `{I2C B} (fd : Z) (n : nat) (st : Stats) (w : World B)
  : list Z :=
  match n with
  | O => []
  | S n' =>
      fst (getDistance fd w) ::
      (let (st', w') := loop_body fd st w in readings fd n' st' w')
  end.

Definition accepted (ds : list Z) : list Z := List.filter (fun d => d >? 0) ds.
Definition no_sample (ds : list Z) : list Z := List.filter (fun d => negb (d >? 0)) ds.

Fixpoint total (ds : list Z) : Z :=
  match ds with
  | [] => 0
  | d :: rest => d + total rest
  end.

Fixpoint minimum (d : Z) (ds : list Z) : Z :=
  match ds with
  | [] => d
  | e :: rest => Z.min d (minimum e rest)
  end.

Fixpoint maximum (d : Z) (ds : list Z) : Z :=
  match ds with
  | [] => d
  | e :: rest => Z.max d (maximum e rest)
  end.

(** The smallest and the largest of the accepted distances, or the
    initial value of the accumulator when there is none. *)
Definition min_accepted (ds : list Z) : Z :=
  match accepted ds with
  | [] => 9999
  | d :: rest => minimum d rest
  end.

Definition max_accepted (ds : list Z) : Z :=
  match accepted ds with
  | [] => 0
  | d :: rest => maximum d rest
  end.

(** What a program prints when run from [w]. *)
Definition printed_by {B A : Type} (m : prog B A) (w : World B) : list printf_call :=
  skipn (length (console w)) (console (snd (m w))).

Definition is_waiting (p : printf_call) : bool :=
  match p with
  | P_waiting _ => true
  | _ => false
  end.

(** Whether turn [n + 1] of the loop prints the waiting line. *)
Definition warns {B : Type} `{I2C B} (fd : Z) (n : nat) (w : World B) : bool :=
  let (st, w') := main_loop fd n initial_stats w in
  existsb is_waiting (printed_by (loop_body fd st) w').

(** The length of the run of no-sample turns that ends the list. *)
Fixpoint leading_no_samples (ds : list Z) : nat :=
  match ds with
  | [] => O
  | d :: rest => if d >? 0 then O else S (leading_no_samples rest)
  end.

Definition trailing_no_samples (ds : list Z) : nat := leading_no_samples (rev ds).

(** Whether the last turn completes a run of 20 consecutive no-sample
    turns (or of 40, 60, ...). *)
Definition run_of_20_completes (ds : list Z) : bool :=
  let t := trailing_no_samples ds in
  (0 <? t)%nat && (t mod 20 =? 0)%nat.

(** The calls of one poll of the firmware status register that was
    answered with [r]. *)
Definition firmware_poll (r : Z) : list bus_call :=
  [select FIRMWARE_SYSTEM_STATUS; CallRead r].

(** The answers of a bus that identifies as a VL53L1X, reports its
    firmware ready at the first poll and then has data ready in every
    cycle, with status byte 0 and the distances 50, 250, 500, 9000 and 400. *)
Definition scenario_answers : list Z :=
  [0xEA; 0xCC; 0x01]
  ++ sample_answers 0x01 0x00 50
  ++ sample_answers 0x01 0x00 250
  ++ sample_answers 0x01 0x00 500
  ++ sample_answers 0x01 0x00 9000
  ++ sample_answers 0x01 0x00 400.

(** The line [printDistance] prints for distance [d] as sample [c]. *)
Definition sample_line (d c : Z) : list printf_call :=
  [P_sample c d; P_bar_open] ++
  List.repeat P_bar (Z.to_nat (if Z.quot d 100 >? 40 then 40 else Z.quot d 100)) ++
  (if d <? 100 then [P_very_close]
   else if d <? 300 then [P_close] else []) ++
  [P_newline].

(** A register file that has data ready in every cycle, with status
    byte 0 and distance 7999 (0x1F3F), in the state one cycle leaves it
    in: the index after the interrupt-clear register, which holds 1. *)
Definition steady_7999 : RegFile :=
  mkRegFile 0x0087
    (<[0x0031 := 0x01]> (<[0x0086 := 0x01]> (<[0x0096 := 0x1F]> (<[0x0097 := 0x3F]> ∅)))).

(** Nineteen cycles without data, one sample of 100 mm, one cycle
    without data. *)
Definition interrupted_answers : list Z :=
  List.repeat 0 19 ++ sample_answers 0x01 0x00 100 ++ idle_answers 0.

(** Ten cycles without data, one sample of 100 mm, twenty cycles
    without data. *)
Definition late_run_answers : list Z :=
  List.repeat 0 10 ++ sample_answers 0x01 0x00 100 ++ List.repeat 0 20.

(** *** Fixed call sequences of the start-up *)

(** The two writes of the soft reset. *)
Definition reset_calls : list bus_call :=
  [select SOFT_RESET; CallWrite 0x00; select SOFT_RESET; CallWrite 0x01].

(** The seven writes of the configuration, in the order of the source. *)
Definition config_calls : list bus_call :=
  [select RANGE_CONFIG_VCSEL_PERIOD_A; CallWrite 0x09;
   select RANGE_CONFIG_VCSEL_PERIOD_B; CallWrite 0x0D;
   select RANGE_CONFIG_VALID_PHASE_HIGH; CallWrite 0xC8;
   select RANGE_CONFIG_TIMEOUT_MACROP_A; CallWrite 0x00; CallWrite 0xD6;
   select RANGE_CONFIG_TIMEOUT_MACROP_B; CallWrite 0x00; CallWrite 0xD6;
   select SYSTEM_INTERRUPT_CONFIG_GPIO; CallWrite 0x01;
   select SYSTEM_INTERRUPT_CLEAR; CallWrite 0x01].

(** The two writes of [startRanging]. *)
Definition start_calls : list bus_call :=
  [select SYSTEM_INTERRUPT_CLEAR; CallWrite 0x01;
   select SYSTEM_MODE_START; CallWrite 0x40].

(** A bus on which every read fails, with the calls made on it so far. *)
Definition dead_bus (made : list bus_call) : Traced Script :=
  mkTraced (mkScript []) made.

(** The sample headers among printed items, and the headers of the
    distances [ds] numbered on from the counter value [c]. *)
Definition is_sample (p : printf_call) : bool :=
  match p with
  | P_sample _ _ => true
  | _ => false
  end.

Fixpoint numbered (c : Z) (ds : list Z) : list printf_call :=
  match ds with
  | [] => []
  | d :: rest => P_sample (c + 1) d :: numbered (c + 1) rest
  end.

(** The three lines of the banner [main] starts with. *)
Definition banner : list printf_call :=
  [P_banner_rule; P_banner_title; P_banner_rule].

Definition exited (result : Z + Stats) : bool :=
  match result with
  | inl _ => true
  | inr _ => false
  end.

(** * Properties *)

(** ** Integer conversions *)

Lemma land_255 (x : Z) : Z.land x 0xFF = x mod 256.
Proof. change 0xFF with (Z.ones 8). now rewrite Z.land_ones by lia. Qed.

Lemma land_1 (x : Z) : Z.land x 0x01 = x mod 2.
Proof. change 0x01 with (Z.ones 1). now rewrite Z.land_ones by lia. Qed.

Lemma shiftr_8 (x : Z) : Z.shiftr x 8 = x / 256.
Proof. now rewrite Z.shiftr_div_pow2 by lia. Qed.

Lemma uint8_byte (x : Z) : uint8 (Z.land x 0xFF) = x mod 256.
Proof. unfold uint8. rewrite land_255. apply Z.mod_mod. lia. Qed.

Lemma bit0_byte (x : Z) : Z.land (uint8 (Z.land x 0xFF)) 0x01 = Z.land x 0x01.
Proof.
  rewrite uint8_byte, <- land_255, <- Z.land_assoc. reflexivity.
Qed.

Lemma uint8_small (x : Z) : 0 <= x < 256 -> uint8 x = x.
Proof. intros Hx. unfold uint8. now apply Z.mod_small. Qed.

Lemma uint16_small (x : Z) : 0 <= x < 65536 -> uint16 x = x.
Proof. intros Hx. unfold uint16. now apply Z.mod_small. Qed.

Lemma sint32_small (x : Z) : - 2147483648 <= x <= INT_MAX -> sint32 x = x.
Proof. unfold sint32, INT_MAX. intros Hx. rewrite Z.mod_small; lia. Qed.

Lemma sint32_range (x : Z) : - 2147483648 <= sint32 x <= INT_MAX.
Proof.
  unfold sint32, INT_MAX.
  pose proof (Z.mod_pos_bound (x + 2147483648) 4294967296). lia.
Qed.

Lemma sint32_idem (x : Z) : sint32 (sint32 x) = sint32 x.
Proof.
  apply sint32_small. pose proof (sint32_range x). unfold INT_MAX in *. lia.
Qed.

(** Counting in [int]: wrapping after every step is wrapping once. *)
Lemma sint32_add_l (x y : Z) : sint32 (sint32 x + y) = sint32 (x + y).
Proof.
  unfold sint32.
  replace ((x + 2147483648) mod 4294967296 - 2147483648 + y + 2147483648)
    with ((x + 2147483648) mod 4294967296 + y) by lia.
  replace (x + y + 2147483648) with ((x + 2147483648) + y) by lia.
  now rewrite Zplus_mod_idemp_l.
Qed.

(** A high and a low byte joined by [(high << 8) | low]. *)
Lemma lor_shiftl_8 (h l : Z) :
  0 <= l < 256 -> Z.lor (Z.shiftl h 8) l = h * 256 + l.
Proof.
  intros Hl.
  assert (Hdisj : Z.land (Z.shiftl h 8) l = 0).
  { apply Z.bits_inj'. intros n Hn.
    rewrite Z.land_spec, Z.bits_0.
    destruct (Z.ltb_spec n 8) as [Hlt | Hge].
    - now rewrite Z.shiftl_spec_low.
    - rewrite <- (Z.mod_small l (2 ^ 8)) by (change (2 ^ 8) with 256; lia).
      rewrite Z.mod_pow2_bits_high by lia. apply andb_false_r. }
  rewrite <- Z.lxor_lor, <- Z.add_nocarry_lxor by exact Hdisj.
  now rewrite Z.shiftl_mul_pow2 by lia.
Qed.

(** The two bytes of a 16-bit value put back together by the
    expression of [readReg16]. *)
Lemma join_split_16 (v : Z) :
  0 <= v < 65536 ->
  uint16 (Z.lor (Z.shiftl ((v / 256) mod 256) 8) (v mod 256)) = v.
Proof.
  intros Hv.
  rewrite lor_shiftl_8 by (apply Z.mod_pos_bound; lia).
  rewrite (Z.mod_small (v / 256)) by
    (split; [apply Z.div_pos; lia | apply Z.div_lt_upper_bound; lia]).
  rewrite uint16_small; pose proof (Z.div_mod v 256); lia.
Qed.

(** ** The register access shim *)

Lemma select_uint16 (reg : Z) :
  0 <= reg < 65536 ->
  CallWriteReg8 (Z.land (Z.shiftr (uint16 reg) 8) 0xFF) (Z.land (uint16 reg) 0xFF)
  = select reg.
Proof. intros Hr. now rewrite uint16_small. Qed.

Lemma regfile_next_cell (p : Z) : 0 <= p < 65536 -> p <> uint16 (p + 1).
Proof.
  intros Hp Heq. unfold uint16 in Heq.
  destruct (Z.eq_dec p 65535) as [-> | Hne].
  - vm_compute in Heq. discriminate.
  - rewrite Z.mod_small in Heq; lia.
Qed.

Lemma regfile_pointer_range (reg : Z) :
  0 <= uint8 (Z.land (Z.shiftr reg 8) 0xFF) * 256 + uint8 (Z.land reg 0xFF) < 65536.
Proof.
  rewrite !uint8_byte.
  pose proof (Z.mod_pos_bound (Z.shiftr reg 8) 256).
  pose proof (Z.mod_pos_bound reg 256). lia.
Qed.

(** C3: [writeReg16] sends, after the register selection, exactly the
    two data bytes [(v >> 8) & 0xFF] then [v & 0xFF]; and [readReg16] of
    the same register gives [v] back, both over a register file that was
    written by [writeReg16] and over a bus that answers with those two
    bytes. *)
Theorem writeReg16_big_endian_round_trip :
  forall (B : Type) (HB : I2C B) (fd reg v : Z)
         (w : World (Traced B)) (rf : World RegFile) (rest : list Z),
    0 <= reg < 65536 ->
    0 <= v < 65536 ->
    calls (bus (snd (writeReg16 fd reg v w)))
      = calls (bus w) ++ [select reg;
                          CallWrite (Z.land (Z.shiftr v 8) 0xFF);
                          CallWrite (Z.land v 0xFF)]
    /\ fst (readReg16 fd reg (snd (writeReg16 fd reg v rf))) = v
    /\ fst (readReg16 fd reg
              (script_world (Z.land (Z.shiftr v 8) 0xFF :: Z.land v 0xFF :: rest))) = v.
Proof.
  intros B HB fd reg v w rf rest Hreg Hv.
  split; [| split].
  - unfold writeReg16, bind, i2cWriteReg8, i2cWrite. cbn.
    rewrite select_uint16 by assumption.
    rewrite (uint16_small v) by assumption.
    now rewrite <- !app_assoc.
  - unfold readReg16, writeReg16, bind, i2cWriteReg8, i2cWrite, i2cRead, ret. cbn.
    rewrite (uint16_small reg), (uint16_small v) by assumption.
    pose proof (regfile_pointer_range reg) as Hp.
    set (p := uint8 (Z.land (Z.shiftr reg 8) 0xFF) * 256 + uint8 (Z.land reg 0xFF)) in *.
    rewrite lookup_insert_ne by (symmetry; now apply regfile_next_cell).
    rewrite !lookup_insert_eq. cbn.
    rewrite !uint8_byte, !Z.mod_mod, shiftr_8 by lia.
    now apply join_split_16.
  - unfold readReg16, script_world, fresh, bind, i2cWriteReg8, i2cRead, ret. cbn.
    rewrite !uint8_byte, !land_255, !Z.mod_mod, shiftr_8 by lia.
    now apply join_split_16.
Qed.

Lemma writeReg16_big_endian_round_trip_witness :
  calls (bus (snd (writeReg16 3 0x005E 0x00D6 (script_world []))))
    = calls (bus (script_world [])) ++
        [select 0x005E;
         CallWrite (Z.land (Z.shiftr 0x00D6 8) 0xFF);
         CallWrite (Z.land 0x00D6 0xFF)]
  /\ fst (readReg16 3 0x005E
            (snd (writeReg16 3 0x005E 0x00D6 (fresh (mkRegFile 0 ∅))))) = 0x00D6
  /\ fst (readReg16 3 0x005E
            (script_world (Z.land (Z.shiftr 0x00D6 8) 0xFF
                             :: Z.land 0x00D6 0xFF :: []))) = 0x00D6.
Proof.
  apply (writeReg16_big_endian_round_trip Script _ 3 0x005E 0x00D6
           (script_world []) (fresh (mkRegFile 0 ∅)) []); lia.
Defined.

(** *** What each shim call does to a recording bus *)

Section TracedShim.

Context {B : Type} `{I2C B}.

Implicit Types (w : World (Traced B)) (fd reg value : Z).

Lemma bind_run {A C} (m : prog (Traced B) A) (k : A -> prog (Traced B) C) w :
  bind m k w = let (a, w') := m w in k a w'.
Proof. reflexivity. Qed.

Lemma readReg8_traced fd reg w :
  readReg8 fd reg w =
  let b0 := wiringPiI2CWriteReg8 fd (Z.land (Z.shiftr (uint16 reg) 8) 0xFF)
              (Z.land (uint16 reg) 0xFF) (inner (bus w)) in
  let (r, b) := wiringPiI2CRead fd b0 in
  (uint8 (Z.land r 0xFF),
   mkWorld (mkTraced b (calls (bus w) ++ [select (uint16 reg); CallRead r]))
           (console w) (slept w)).
Proof.
  unfold readReg8, bind, i2cWriteReg8, i2cRead, ret. cbn.
  destruct (wiringPiI2CRead fd _) as [r b]. now rewrite <- app_assoc.
Qed.

Lemma readReg16_traced fd reg w :
  readReg16 fd reg w =
  let b0 := wiringPiI2CWriteReg8 fd (Z.land (Z.shiftr (uint16 reg) 8) 0xFF)
              (Z.land (uint16 reg) 0xFF) (inner (bus w)) in
  let (r1, b1) := wiringPiI2CRead fd b0 in
  let (r2, b2) := wiringPiI2CRead fd b1 in
  (uint16 (Z.lor (Z.shiftl (uint8 (Z.land r1 0xFF)) 8) (uint8 (Z.land r2 0xFF))),
   mkWorld (mkTraced b2 (calls (bus w) ++ [select (uint16 reg); CallRead r1; CallRead r2]))
           (console w) (slept w)).
Proof.
  unfold readReg16, bind, i2cWriteReg8, i2cRead, ret. cbn.
  destruct (wiringPiI2CRead fd _) as [r1 b1]. cbn.
  destruct (wiringPiI2CRead fd b1) as [r2 b2]. now rewrite <- !app_assoc.
Qed.

Lemma writeReg8_traced fd reg value w :
  writeReg8 fd reg value w =
  (tt,
   mkWorld (mkTraced
              (wiringPiI2CWrite fd (uint8 value)
                 (wiringPiI2CWriteReg8 fd (Z.land (Z.shiftr (uint16 reg) 8) 0xFF)
                    (Z.land (uint16 reg) 0xFF) (inner (bus w))))
              (calls (bus w) ++ [select (uint16 reg); CallWrite (uint8 value)]))
           (console w) (slept w)).
Proof.
  unfold writeReg8, bind, i2cWriteReg8, i2cWrite. cbn. now rewrite <- app_assoc.
Qed.

Lemma writeReg16_traced fd reg value w :
  writeReg16 fd reg value w =
  (tt,
   mkWorld (mkTraced
              (wiringPiI2CWrite fd (Z.land (uint16 value) 0xFF)
                 (wiringPiI2CWrite fd (Z.land (Z.shiftr (uint16 value) 8) 0xFF)
                    (wiringPiI2CWriteReg8 fd (Z.land (Z.shiftr (uint16 reg) 8) 0xFF)
                       (Z.land (uint16 reg) 0xFF) (inner (bus w)))))
              (calls (bus w) ++ [select (uint16 reg);
                                 CallWrite (Z.land (Z.shiftr (uint16 value) 8) 0xFF);
                                 CallWrite (Z.land (uint16 value) 0xFF)]))
           (console w) (slept w)).
Proof.
  unfold writeReg16, bind, i2cWriteReg8, i2cWrite. cbn. now rewrite <- !app_assoc.
Qed.

End TracedShim.

(** [getDistance] spelled out as one expression over the worlds it goes
    through.  It holds over every bus. *)
Lemma getDistance_run {B : Type} `{I2C B} (fd : Z) (w : World B) :
  getDistance fd w =
  let (gpio_status, w1) := readReg8 fd GPIO_TIO_HV_STATUS w in
  if Z.land gpio_status 0x01 =? 0 then (-1, w1)
  else
    let (range_status, w2) := readReg8 fd RESULT_RANGE_STATUS w1 in
    let (distance, w3) := readReg16 fd RESULT_DISTANCE w2 in
    let (_, w4) := writeReg8 fd SYSTEM_INTERRUPT_CLEAR 0x01 w3 in
    (if (distance >? 0) && (distance <? 8000)
        && (Z.land (Z.shiftr range_status 4) 0x0F =? 0)
     then distance else -1, w4).
Proof.
  unfold getDistance, bind at 1.
  destruct (readReg8 fd GPIO_TIO_HV_STATUS w) as [g w1].
  destruct (Z.land g 1 =? 0); [reflexivity |].
  unfold bind.
  destruct (readReg8 fd RESULT_RANGE_STATUS w1) as [s w2].
  destruct (readReg16 fd RESULT_DISTANCE w2) as [d w3].
  destruct (writeReg8 fd SYSTEM_INTERRUPT_CLEAR 1 w3) as [u w4].
  destruct ((d >? 0) && (d <? 8000)); [| reflexivity].
  now destruct (Z.land (Z.shiftr s 4) 15 =? 0).
Qed.

(** ** The per-sample read *)

Lemma getDistance_sample (fd g s dist : Z) (rest : list Z) :
  Z.land g 0x01 <> 0 -> 0 <= s < 256 -> 0 <= dist < 65536 ->
  fst (getDistance fd (script_world (sample_answers g s dist ++ rest)))
  = if (dist >? 0) && (dist <? 8000) && (Z.land (Z.shiftr s 4) 0x0F =? 0)
    then dist else -1.
Proof.
  intros Hg Hs Hd.
  rewrite getDistance_run, readReg8_traced. cbn.
  rewrite bit0_byte.
  destruct (Z.eqb_spec (Z.land g 1) 0) as [Hz | _]; [contradiction |].
  cbn [fst].
  rewrite !uint8_byte, !land_255, !Z.mod_mod, shiftr_8 by lia.
  rewrite join_split_16 by assumption.
  now rewrite (Z.mod_small s) by assumption.
Qed.

(** C1: in a poll cycle that finds data ready, with status byte [s] and
    16-bit distance [dist] read from the bus, [getDistance] returns
    [dist] exactly when [0 < dist < 8000] and bits 4-7 of [s] are zero,
    and the sentinel [-1] otherwise.  So 0 is rejected, 7999 is accepted
    with status nibble 0 and rejected with status nibble 1, and 8000 is
    rejected. *)
Theorem getDistance_accepts_iff :
  forall (fd g s : Z) (rest : list Z),
    Z.land g 0x01 <> 0 ->
    0 <= s < 256 ->
    let got dist :=
      fst (getDistance fd (script_world (sample_answers g s dist ++ rest))) in
    (forall dist, 0 <= dist < 65536 ->
       (got dist = dist <-> 0 < dist < 8000 /\ Z.land (Z.shiftr s 4) 0x0F = 0)
       /\ (got dist = dist \/ got dist = -1))
    /\ got 0 = -1
    /\ (Z.land (Z.shiftr s 4) 0x0F = 0 -> got 7999 = 7999)
    /\ (Z.land (Z.shiftr s 4) 0x0F = 1 -> got 7999 = -1)
    /\ got 8000 = -1.
Proof.
  intros fd g s rest Hg Hs got.
  assert (Hgot : forall dist, 0 <= dist < 65536 ->
            got dist = if (dist >? 0) && (dist <? 8000)
                          && (Z.land (Z.shiftr s 4) 0x0F =? 0)
                       then dist else -1).
  { intros dist Hd. unfold got. now apply getDistance_sample. }
  split; [| repeat split].
  - intros dist Hd. rewrite (Hgot dist Hd).
    destruct (Z.gtb_spec dist 0), (Z.ltb_spec dist 8000),
      (Z.eqb_spec (Z.land (Z.shiftr s 4) 0x0F) 0); cbn; split;
      try (right; reflexivity); try (left; reflexivity);
      try (split; [intros; lia | intros [? ?]; first [lia | contradiction]]).
  - now rewrite Hgot by lia.
  - intros Hn. rewrite Hgot by lia. now rewrite Hn.
  - intros Hn. rewrite Hgot by lia. now rewrite Hn.
  - now rewrite Hgot by lia.
Qed.

Lemma getDistance_accepts_iff_witness :
  Z.land 1 0x01 <> 0 /\ 0 <= 0 < 256 /\
  fst (getDistance 3 (script_world (sample_answers 1 0 7999 ++ []))) = 7999.
Proof.
  assert (Hg : Z.land 1 0x01 <> 0) by (vm_compute; discriminate).
  assert (Hs : 0 <= 0 < 256) by lia.
  split; [exact Hg | split; [exact Hs |]].
  apply (getDistance_accepts_iff 3 1 0 [] Hg Hs). reflexivity.
Defined.

(** The calls of one [getDistance] on a recording bus, over any bus
    underneath: two when the data-ready bit is unset, nine otherwise. *)
Lemma getDistance_calls {B : Type} `{I2C B} (fd : Z) (w : World (Traced B)) :
  exists g : Z,
    fst (readReg8 fd GPIO_TIO_HV_STATUS w) = uint8 (Z.land g 0xFF) /\
    if Z.land (uint8 (Z.land g 0xFF)) 0x01 =? 0 then
      getDistance fd w = (-1, snd (readReg8 fd GPIO_TIO_HV_STATUS w)) /\
      calls (bus (snd (getDistance fd w)))
        = calls (bus w) ++ [select GPIO_TIO_HV_STATUS; CallRead g]
    else
      exists s h l : Z,
        calls (bus (snd (getDistance fd w)))
          = calls (bus w) ++
              [select GPIO_TIO_HV_STATUS; CallRead g;
               select RESULT_RANGE_STATUS; CallRead s;
               select RESULT_DISTANCE; CallRead h; CallRead l;
               select SYSTEM_INTERRUPT_CLEAR; CallWrite 0x01].
Proof.
  rewrite getDistance_run, readReg8_traced. cbn zeta.
  destruct (wiringPiI2CRead fd _) as [g b1]. exists g. cbn [fst snd].
  split; [reflexivity |].
  destruct (Z.land (uint8 (Z.land g 255)) 1 =? 0); [split; reflexivity |].
  rewrite readReg8_traced. cbn zeta. cbn [bus inner calls console slept].
  destruct (wiringPiI2CRead fd _) as [s b2].
  rewrite readReg16_traced. cbn zeta. cbn [bus inner calls console slept].
  destruct (wiringPiI2CRead fd _) as [h b3].
  destruct (wiringPiI2CRead fd b3) as [l b4].
  rewrite writeReg8_traced. cbn [snd bus inner calls console slept].
  exists s, h, l. now rewrite <- !app_assoc.
Qed.

(** C9: when the data-ready bit is unset, [getDistance] returns the
    sentinel at once, in the world the status read left behind: its only
    calls are the selection and the read of the GPIO status register, so
    the range status and the distance are not read and nothing is written
    to the interrupt-clear register; the cells of a register file are as
    they were. *)
Theorem getDistance_not_ready_frame :
  forall (B : Type) (HB : I2C B) (fd : Z) (w : World (Traced B)) (rf : World RegFile),
    (Z.land (fst (readReg8 fd GPIO_TIO_HV_STATUS w)) 0x01 = 0 ->
     getDistance fd w = (-1, snd (readReg8 fd GPIO_TIO_HV_STATUS w))
     /\ exists (g : Z) (emitted : list bus_call),
          emitted = [select GPIO_TIO_HV_STATUS; CallRead g]
          /\ calls (bus (snd (getDistance fd w))) = calls (bus w) ++ emitted
          /\ selections RESULT_RANGE_STATUS emitted = 0%nat
          /\ selections RESULT_DISTANCE emitted = 0%nat
          /\ selections SYSTEM_INTERRUPT_CLEAR emitted = 0%nat
          /\ reg8_writes SYSTEM_INTERRUPT_CLEAR 0x01 emitted = 0%nat)
    /\ (Z.land (fst (readReg8 fd GPIO_TIO_HV_STATUS rf)) 0x01 = 0 ->
        fst (getDistance fd rf) = -1
        /\ cells (bus (snd (getDistance fd rf))) = cells (bus rf)).
Proof.
  intros B HB fd w rf. split.
  - intros Hidle.
    destruct (getDistance_calls fd w) as [g [Hg Hcalls]].
    rewrite Hg in Hidle. rewrite Hidle in Hcalls. cbn in Hcalls.
    destruct Hcalls as [Hrun Hlog].
    split; [exact Hrun |].
    exists g, [select GPIO_TIO_HV_STATUS; CallRead g].
    repeat split; try exact Hlog.
    all: unfold selections; cbn; now destruct g.
  - intros Hidle. rewrite getDistance_run.
    destruct (readReg8 fd GPIO_TIO_HV_STATUS rf) as [g rf1] eqn:Hread.
    cbn [fst] in Hidle. rewrite Hidle. cbn. split; [reflexivity |].
    unfold readReg8, bind, i2cWriteReg8, i2cRead, ret in Hread. cbn in Hread.
    now inversion Hread.
Qed.

Lemma getDistance_not_ready_frame_witness :
  Z.land (fst (readReg8 3 GPIO_TIO_HV_STATUS (script_world (idle_answers 0)))) 0x01 = 0
  /\ getDistance 3 (script_world (idle_answers 0))
     = (-1, snd (readReg8 3 GPIO_TIO_HV_STATUS (script_world (idle_answers 0))))
  /\ cells (bus (snd (getDistance 3 (fresh (mkRegFile 0 ∅))))) = ∅.
Proof.
  pose proof (getDistance_not_ready_frame Script _ 3
                (script_world (idle_answers 0)) (fresh (mkRegFile 0 ∅))) as [Hlog Hcells].
  split; [reflexivity | split].
  - apply Hlog. reflexivity.
  - apply Hcells. reflexivity.
Defined.

(** C2, as stated, fails in a cycle that finds no data: [getDistance]
    then writes nothing to the interrupt-clear register. *)
Lemma interrupt_clear_every_invocation_counterexample :
  reg8_writes SYSTEM_INTERRUPT_CLEAR 0x01
    (calls (bus (snd (getDistance 3 (script_world (idle_answers 0)))))) <> 1%nat.
Proof. vm_compute. discriminate. Qed.

(** C2, amended: an invocation of [getDistance] that finds the
    data-ready bit set writes 0x01 to SYSTEM_INTERRUPT_CLEAR exactly once,
    whatever the status and the distance it read and so whether the
    reading is accepted or not; an invocation that finds the bit unset
    does not write it. *)
Theorem interrupt_clear_once_when_ready :
  forall (B : Type) (HB : I2C B) (fd : Z) (w : World (Traced B)),
  exists emitted : list bus_call,
    calls (bus (snd (getDistance fd w))) = calls (bus w) ++ emitted
    /\ reg8_writes SYSTEM_INTERRUPT_CLEAR 0x01 emitted
       = if Z.land (fst (readReg8 fd GPIO_TIO_HV_STATUS w)) 0x01 =? 0
         then 0%nat else 1%nat.
Proof.
  intros B HB fd w.
  destruct (getDistance_calls fd w) as [g [Hg Hcalls]].
  rewrite Hg.
  destruct (Z.land (uint8 (Z.land g 255)) 1 =? 0).
  - destruct Hcalls as [_ Hlog].
    exists [select GPIO_TIO_HV_STATUS; CallRead g]. split; [exact Hlog |].
    reflexivity.
  - destruct Hcalls as [s [h [l Hlog]]].
    eexists. split; [exact Hlog |]. reflexivity.
Qed.

(** ** Start-up *)

Lemma selections_app (reg : Z) (l1 l2 : list bus_call) :
  selections reg (l1 ++ l2) = (selections reg l1 + selections reg l2)%nat.
Proof. unfold selections. now rewrite List.filter_app, length_app. Qed.

Lemma selections_cons (reg : Z) (c : bus_call) (l : list bus_call) :
  selections reg (c :: l)
  = ((if bus_call_eqb c (select reg) then 1 else 0) + selections reg l)%nat.
Proof. unfold selections. cbn [List.filter]. now destruct (bus_call_eqb c (select reg)). Qed.

Lemma selections_poll (r : Z) :
  selections FIRMWARE_SYSTEM_STATUS [select FIRMWARE_SYSTEM_STATUS; CallRead r] = 1%nat.
Proof. reflexivity. Qed.

(** One turn of the firmware wait on a recording bus. *)
Lemma await_firmware_turn {B : Type} `{I2C B} (fd : Z) (n : nat) (i : Z)
      (w : World (Traced B)) :
  await_firmware fd (S n) i w =
  let (s, w1) := readReg8 fd FIRMWARE_SYSTEM_STATUS w in
  if Z.land s 0x01 =? 0
  then await_firmware fd n (sint32 (i + 1))
         (mkWorld (bus w1) (console w1) (slept w1 + 10000))
  else (i, mkWorld (bus w1) (console w1 ++ [P_firmware_loaded (sint32 (i + 1))])
                   (slept w1)).
Proof.
  cbn [await_firmware]. rewrite bind_run.
  destruct (readReg8 fd FIRMWARE_SYSTEM_STATUS w) as [s w1].
  now destruct (Z.land s 1 =? 0).
Qed.

(** The firmware wait over any bus: it only adds calls, among them at
    most [n] selections of the firmware status register, and leaves with
    a counter between its start value and start value plus [n]. *)
Lemma await_firmware_log {B : Type} `{I2C B} (fd : Z) (n : nat) :
  forall (i : Z) (w : World (Traced B)),
    0 <= i -> i + Z.of_nat n <= INT_MAX ->
    exists l : list bus_call,
      calls (bus (snd (await_firmware fd n i w))) = calls (bus w) ++ l
      /\ (selections FIRMWARE_SYSTEM_STATUS l <= n)%nat
      /\ i <= fst (await_firmware fd n i w) <= i + Z.of_nat n.
Proof.
  induction n as [| n IH]; intros i w Hi Hmax.
  - exists []. cbn. rewrite app_nil_r. repeat split; lia.
  - rewrite await_firmware_turn, readReg8_traced. cbn zeta.
    destruct (wiringPiI2CRead fd _) as [r b].
    cbn [bus console slept].
    destruct (Z.land (uint8 (Z.land r 255)) 1 =? 0).
    + rewrite sint32_small by (unfold INT_MAX in *; lia).
      destruct (IH (i + 1) (mkWorld (mkTraced b
                     (calls (bus w) ++ [select (uint16 FIRMWARE_SYSTEM_STATUS); CallRead r]))
                     (console w) (slept w + 10000))) as [l [Hl [Hn Hr]]]; try lia.
      exists ([select FIRMWARE_SYSTEM_STATUS; CallRead r] ++ l).
      split; [| split].
      * rewrite Hl. cbn [bus calls]. now rewrite <- app_assoc.
      * rewrite selections_app, selections_poll. lia.
      * lia.
    + exists [select FIRMWARE_SYSTEM_STATUS; CallRead r].
      cbn [fst snd bus calls]. split; [reflexivity | split; [| lia]].
      rewrite selections_poll. lia.
Qed.

(** The calls of the soft reset and of the configuration. *)
Lemma initSensor_log {B : Type} `{I2C B} (fd : Z) (w : World (Traced B)) :
  exists (r1 r2 : Z) (later : list bus_call),
    let id := uint16 (Z.lor (Z.shiftl (uint8 (Z.land r1 0xFF)) 8)
                            (uint8 (Z.land r2 0xFF))) in
    fst (readReg16 fd IDENTIFICATION_MODEL_ID w) = id
    /\ calls (bus (snd (initSensor fd w)))
       = calls (bus w) ++ [select IDENTIFICATION_MODEL_ID; CallRead r1; CallRead r2] ++ later
    /\ if id =? 0xEACC then
         exists polls config : list bus_call,
           later = [select SOFT_RESET; CallWrite 0x00; select SOFT_RESET; CallWrite 0x01]
                   ++ polls ++ config
           /\ (selections FIRMWARE_SYSTEM_STATUS polls <= 100)%nat
           /\ selections FIRMWARE_SYSTEM_STATUS config = 0%nat
       else
         later = []
         /\ fst (initSensor fd w) = -1
         /\ console (snd (initSensor fd w))
            = console w ++ [P_init_start; P_unknown_sensor id].
Proof.
  unfold initSensor. rewrite bind_run. cbn [printf].
  rewrite bind_run, !readReg16_traced. cbn zeta. cbn [bus console slept].
  destruct (wiringPiI2CRead fd _) as [r1 b1].
  destruct (wiringPiI2CRead fd b1) as [r2 b2].
  set (id := uint16 (Z.lor (Z.shiftl (uint8 (Z.land r1 255)) 8) (uint8 (Z.land r2 255)))).
  exists r1, r2. cbn zeta. cbn [fst]. fold id.
  destruct (id =? 60108) eqn:Hid.
  - rewrite bind_run. cbn [printf bus console slept].
    rewrite bind_run, writeReg8_traced. cbn [usleep bus inner calls console slept].
    rewrite bind_run. cbn [usleep bus inner calls console slept].
    rewrite bind_run, writeReg8_traced. cbn [usleep bus inner calls console slept].
    rewrite bind_run. cbn [usleep bus inner calls console slept].
    rewrite bind_run. cbn [printf bus inner calls console slept].
    rewrite bind_run.
    match goal with |- context [await_firmware fd 100 0 ?w0] => set (w5 := w0) end.
    destruct (await_firmware_log fd 100 0 w5) as [polls [Hlog [Hpolls _]]];
      [lia | unfold INT_MAX; lia |].
    destruct (await_firmware fd 100 0 w5) as [i w6]. cbn [snd] in Hlog.
    subst w5. cbn [bus calls] in Hlog.
    destruct (i >=? 100).
    + rewrite bind_run. cbn [printf ret snd bus].
      eexists. split; [reflexivity | split].
      * rewrite Hlog. rewrite <- !app_assoc. reflexivity.
      * exists polls, []. rewrite app_nil_r. repeat split. exact Hpolls.
    + do 3 (rewrite bind_run, writeReg8_traced; cbn [bus inner calls console slept]).
      do 2 (rewrite bind_run, writeReg16_traced; cbn [bus inner calls console slept]).
      do 2 (rewrite bind_run, writeReg8_traced; cbn [bus inner calls console slept]).
      rewrite bind_run. cbn [printf ret snd bus calls].
      eexists. split; [reflexivity | split].
      * rewrite Hlog. rewrite <- !app_assoc. reflexivity.
      * exists polls. eexists. split; [reflexivity | split; [exact Hpolls |]].
        reflexivity.
  - eexists. split; [reflexivity |].
    rewrite bind_run. cbn [printf ret fst snd bus calls console].
    split; [| split; [reflexivity | split; [reflexivity |]]].
    + now rewrite app_nil_r.
    + now rewrite <- app_assoc.
Qed.

(** C4: the first bus calls of [initSensor] are the selection of the
    model-identification register and the two reads of its value.  When
    the 16-bit value read is 0xEACC the soft reset follows; for every
    other value [initSensor] returns [-1] and makes no further bus call,
    having printed the unknown-sensor line. *)
Theorem initSensor_identification :
  forall (B : Type) (HB : I2C B) (fd : Z) (w : World (Traced B)),
  exists (r1 r2 : Z) (later : list bus_call),
    let id := fst (readReg16 fd IDENTIFICATION_MODEL_ID w) in
    calls (bus (snd (initSensor fd w)))
      = calls (bus w) ++
          [select IDENTIFICATION_MODEL_ID; CallRead r1; CallRead r2] ++ later
    /\ 0 <= id < 65536
    /\ if id =? 0xEACC then
         exists later' : list bus_call,
           later = [select SOFT_RESET; CallWrite 0x00;
                    select SOFT_RESET; CallWrite 0x01] ++ later'
       else
         later = []
         /\ fst (initSensor fd w) = -1
         /\ console (snd (initSensor fd w))
            = console w ++ [P_init_start; P_unknown_sensor id].
Proof.
  intros B HB fd w.
  destruct (initSensor_log fd w) as [r1 [r2 [later [Hid [Hlog Hnext]]]]].
  exists r1, r2, later. cbn zeta in *. rewrite Hid.
  split; [exact Hlog | split].
  - unfold uint16 at 1. apply Z.mod_pos_bound. lia.
  - destruct (_ =? 60108).
    + destruct Hnext as [polls [config [Hlater _]]].
      exists (polls ++ config). exact Hlater.
    + exact Hnext.
Qed.

Example initSensor_wrong_id :
  let (r, w) := initSensor 3 (script_world [0xEA; 0xCD; 1]) in
  r = -1
  /\ calls (bus w) = [select IDENTIFICATION_MODEL_ID; CallRead 0xEA; CallRead 0xCD]
  /\ pending (inner (bus w)) = [1].
Proof. vm_compute. repeat split. Qed.

(** *** The firmware wait on a scripted bus *)

Lemma selections_firmware_polls (pre : list Z) :
  selections FIRMWARE_SYSTEM_STATUS (flat_map firmware_poll pre) = length pre.
Proof.
  induction pre as [| r pre IH]; [reflexivity |].
  cbn [flat_map]. rewrite selections_app, IH. reflexivity.
Qed.

(** Polls answered with bit 0 unset are gone through one by one, each
    followed by a 10 ms sleep. *)
Lemma await_firmware_idle (fd : Z) (rest : list Z) (n : nat) :
  forall (pre : list Z) (i : Z) (cs : list bus_call) (con : list printf_call) (sl : Z),
    Forall (fun r => Z.land r 0x01 = 0) pre ->
    0 <= i -> i + Z.of_nat (length pre) <= INT_MAX ->
    await_firmware fd (length pre + n) i
      (mkWorld (mkTraced (mkScript (pre ++ rest)) cs) con sl)
    = await_firmware fd n (i + Z.of_nat (length pre))
        (mkWorld (mkTraced (mkScript rest) (cs ++ flat_map firmware_poll pre)) con
                 (sl + 10000 * Z.of_nat (length pre))).
Proof.
  induction pre as [| r pre IH]; intros i cs con sl Hpre Hi Hmax.
  - cbn [length flat_map Nat.add app]. rewrite app_nil_r.
    f_equal; [lia | f_equal; lia].
  - inversion Hpre as [| r' pre' Hr Hpre']; subst.
    cbn [length Nat.add]. rewrite await_firmware_turn, readReg8_traced.
    cbn. rewrite bit0_byte, Hr. cbn [Z.eqb].
    cbn [length] in Hmax.
    rewrite sint32_small by (unfold INT_MAX in *; lia).
    rewrite IH by (try assumption; lia).
    rewrite <- !app_assoc.
    f_equal; [lia | f_equal; lia].
Qed.

Lemma await_firmware_idle_100 (fd : Z) (pre rest : list Z) (k : nat)
      (cs : list bus_call) (con : list printf_call) (sl : Z) :
  (length pre + k = 100)%nat ->
  Forall (fun r => Z.land r 0x01 = 0) pre ->
  await_firmware fd 100 0 (mkWorld (mkTraced (mkScript (pre ++ rest)) cs) con sl)
  = await_firmware fd k (Z.of_nat (length pre))
      (mkWorld (mkTraced (mkScript rest) (cs ++ flat_map firmware_poll pre)) con
               (sl + 10000 * Z.of_nat (length pre))).
Proof.
  intros Hlen Hpre. rewrite <- Hlen.
  rewrite await_firmware_idle by (try assumption; unfold INT_MAX; lia).
  reflexivity.
Qed.

(** With the right model ID answered, [initSensor] reaches the firmware
    wait after the soft reset. *)
Lemma initSensor_reaches_wait (fd : Z) (answers : list Z) :
  initSensor fd (script_world (0xEA :: 0xCC :: answers)) =
  let (i, w) :=
    await_firmware fd 100 0
      (mkWorld (mkTraced (mkScript answers)
                  [select IDENTIFICATION_MODEL_ID; CallRead 0xEA; CallRead 0xCC;
                   select SOFT_RESET; CallWrite 0x00; select SOFT_RESET; CallWrite 0x01])
               [P_init_start; P_sensor_found 0xEACC; P_wait_firmware] 20000) in
  if i >=? 100 then
    (-1, mkWorld (bus w) (console w ++ [P_firmware_timeout]) (slept w))
  else
    (0, mkWorld
          (mkTraced (inner (bus w))
             (calls (bus w) ++
                [select RANGE_CONFIG_VCSEL_PERIOD_A; CallWrite 0x09;
                 select RANGE_CONFIG_VCSEL_PERIOD_B; CallWrite 0x0D;
                 select RANGE_CONFIG_VALID_PHASE_HIGH; CallWrite 0xC8;
                 select RANGE_CONFIG_TIMEOUT_MACROP_A; CallWrite 0x00; CallWrite 0xD6;
                 select RANGE_CONFIG_TIMEOUT_MACROP_B; CallWrite 0x00; CallWrite 0xD6;
                 select SYSTEM_INTERRUPT_CONFIG_GPIO; CallWrite 0x01;
                 select SYSTEM_INTERRUPT_CLEAR; CallWrite 0x01]))
          (console w ++ [P_sensor_ready]) (slept w)).
Proof.
  unfold initSensor, script_world, fresh. rewrite bind_run. cbn [printf].
  rewrite bind_run, readReg16_traced. cbn zeta.
  cbn [bus inner calls console slept wiringPiI2CRead wiringPiI2CWriteReg8
       Traced_I2C Script_I2C pending app].
  change (uint16 (Z.lor (Z.shiftl (uint8 (Z.land 234 255)) 8) (uint8 (Z.land 204 255))))
    with 0xEACC.
  change (60108 =? 60108) with true. cbv iota.
  rewrite bind_run. cbn [printf bus console slept].
  rewrite bind_run, writeReg8_traced. cbn [usleep bus inner calls console slept].
  rewrite bind_run. cbn [usleep bus inner calls console slept].
  rewrite bind_run, writeReg8_traced. cbn [usleep bus inner calls console slept].
  rewrite bind_run. cbn [usleep bus inner calls console slept].
  rewrite bind_run. cbn [printf bus inner calls console slept].
  rewrite bind_run.
  cbn [wiringPiI2CWrite wiringPiI2CWriteReg8 Script_I2C app Z.add Pos.add Pos.succ].
  destruct (await_firmware fd 100 0 _) as [i w].
  destruct (i >=? 100).
  - reflexivity.
  - do 3 (rewrite bind_run, writeReg8_traced; cbn [bus inner calls console slept]).
    do 2 (rewrite bind_run, writeReg16_traced; cbn [bus inner calls console slept]).
    do 2 (rewrite bind_run, writeReg8_traced; cbn [bus inner calls console slept]).
    rewrite bind_run. cbn [printf ret bus calls console slept].
    cbn [wiringPiI2CWrite wiringPiI2CWriteReg8 Script_I2C].
    rewrite <- !app_assoc. reflexivity.
Qed.

(** C5: over every bus, [initSensor] polls the firmware status register
    at most 100 times.  On a bus that answers the first 99 polls with
    bit 0 unset and the 100th with bit 0 set, [initSensor] succeeds, after
    100 polls.  On a bus that answers 100 polls with bit 0 unset it fails,
    after exactly 100 polls and without any further bus call. *)
Theorem firmware_wait_100_polls :
  (forall (B : Type) (HB : I2C B) (fd : Z) (w : World (Traced B)),
     exists emitted : list bus_call,
       calls (bus (snd (initSensor fd w))) = calls (bus w) ++ emitted
       /\ (selections FIRMWARE_SYSTEM_STATUS emitted <= 100)%nat)
  /\ (forall (fd s : Z) (pre rest : list Z),
        length pre = 99%nat ->
        Forall (fun r => Z.land r 0x01 = 0) pre ->
        Z.land s 0x01 <> 0 ->
        let run := initSensor fd (script_world ([0xEA; 0xCC] ++ pre ++ [s] ++ rest)) in
        fst run = 0
        /\ selections FIRMWARE_SYSTEM_STATUS (calls (bus (snd run))) = 100%nat
        /\ In (P_firmware_loaded 100) (console (snd run)))
  /\ (forall (fd : Z) (pre rest : list Z),
        length pre = 100%nat ->
        Forall (fun r => Z.land r 0x01 = 0) pre ->
        let run := initSensor fd (script_world ([0xEA; 0xCC] ++ pre ++ rest)) in
        fst run = -1
        /\ selections FIRMWARE_SYSTEM_STATUS (calls (bus (snd run))) = 100%nat
        /\ calls (bus (snd run))
           = [select IDENTIFICATION_MODEL_ID; CallRead 0xEA; CallRead 0xCC;
              select SOFT_RESET; CallWrite 0x00; select SOFT_RESET; CallWrite 0x01]
             ++ flat_map firmware_poll pre
        /\ pending (inner (bus (snd run))) = rest).
Proof.
  split; [| split].
  - intros B HB fd w.
    destruct (initSensor_log fd w) as [r1 [r2 [later [_ [Hlog Hnext]]]]].
    cbn zeta in Hnext. eexists. split; [exact Hlog |].
    rewrite selections_app.
    destruct (_ =? 60108).
    + destruct Hnext as [polls [config [-> [Hpolls Hconfig]]]].
      rewrite !selections_app, Hconfig.
      change (selections FIRMWARE_SYSTEM_STATUS
                [select IDENTIFICATION_MODEL_ID; CallRead r1; CallRead r2]) with 0%nat.
      change (selections FIRMWARE_SYSTEM_STATUS
                [select SOFT_RESET; CallWrite 0; select SOFT_RESET; CallWrite 1]) with 0%nat.
      lia.
    + destruct Hnext as [-> _].
      change (selections FIRMWARE_SYSTEM_STATUS
                [select IDENTIFICATION_MODEL_ID; CallRead r1; CallRead r2]) with 0%nat.
      cbn. lia.
  - intros fd s pre rest Hlen Hpre Hs run. subst run.
    cbn [app]. rewrite initSensor_reaches_wait.
    rewrite (await_firmware_idle_100 fd pre (s :: rest) 1) by (try assumption; lia).
    rewrite await_firmware_turn, readReg8_traced. cbn.
    rewrite bit0_byte.
    destruct (Z.eqb_spec (Z.land s 1) 0) as [Hz | _]; [contradiction |].
    rewrite Hlen. change (Z.of_nat 99) with 99. cbn -[selections].
    split; [reflexivity | split].
    + rewrite !selections_cons, !selections_app, selections_firmware_polls, Hlen.
      reflexivity.
    + right. right. right. left. reflexivity.
  - intros fd pre rest Hlen Hpre run. subst run.
    cbn [app]. rewrite initSensor_reaches_wait.
    rewrite (await_firmware_idle_100 fd pre rest 0) by (try assumption; lia).
    rewrite Hlen. change (Z.of_nat 100) with 100. cbn -[selections].
    split; [reflexivity | split; [| split; reflexivity]].
    rewrite !selections_cons, selections_firmware_polls, Hlen. reflexivity.
Qed.

Lemma firmware_wait_100_polls_witness :
  fst (initSensor 3 (script_world ([0xEA; 0xCC] ++ List.repeat 0 99 ++ [1] ++ []))) = 0
  /\ fst (initSensor 3 (script_world ([0xEA; 0xCC] ++ List.repeat 2 100 ++ [1]))) = -1.
Proof.
  assert (Hidle99 : Forall (fun r => Z.land r 0x01 = 0) (List.repeat 0 99))
    by (apply List.Forall_forall; intros r Hr; apply List.repeat_spec in Hr; now subst).
  assert (Hidle100 : Forall (fun r => Z.land r 0x01 = 0) (List.repeat 2 100))
    by (apply List.Forall_forall; intros r Hr; apply List.repeat_spec in Hr; now subst).
  assert (Hset : Z.land 1 0x01 <> 0) by (vm_compute; discriminate).
  split.
  - exact (proj1 (proj1 (proj2 firmware_wait_100_polls)
                    3 1 (List.repeat 0 99) [] eq_refl Hidle99 Hset)).
  - exact (proj1 (proj2 (proj2 firmware_wait_100_polls)
                    3 (List.repeat 2 100) [1] eq_refl Hidle100)).
Defined.

(** ** The console line of a sample *)

Lemma print_bars_console {B : Type} `{I2C B} (n : nat) (w : World B) :
  print_bars n w
  = (tt, mkWorld (bus w) (console w ++ List.repeat P_bar n) (slept w)).
Proof.
  revert w. induction n as [| n IH]; intros w.
  - cbn. rewrite app_nil_r. now destruct w.
  - cbn [print_bars]. unfold bind at 1. cbn [printf].
    rewrite IH. cbn [bus console slept List.repeat].
    now rewrite <- app_assoc.
Qed.

(** The tag that ends the line of distance [d]. *)
Lemma printDistance_console {B : Type} `{I2C B} (d c : Z) (w : World B) :
  printDistance d c w
  = (tt,
     mkWorld (bus w)
       (console w ++
          [P_sample c d; P_bar_open] ++
          List.repeat P_bar (Z.to_nat (if Z.quot d 100 >? 40 then 40 else Z.quot d 100)) ++
          (if d <? 100 then [P_very_close]
           else if d <? 300 then [P_close] else []) ++
          [P_newline])
       (slept w)).
Proof.
  unfold printDistance. unfold bind at 1. cbn [printf].
  unfold bind at 1. cbn [printf bus console slept].
  unfold bind at 1. rewrite print_bars_console. cbn [bus console slept].
  unfold bind at 1.
  destruct (d <? 100); [| destruct (d <? 300)];
    unfold printf, ret; cbn [bus console slept];
    rewrite <- ?app_assoc; cbn [app]; rewrite <- ?app_assoc; reflexivity.
Qed.

Lemma printed_by_app {B A : Type} (m : prog B A) (w : World B) (out : list printf_call) :
  console (snd (m w)) = console w ++ out -> printed_by m w = out.
Proof. intros Hout. unfold printed_by. rewrite Hout. apply drop_app_length. Qed.

(** C8: the line printed for an accepted distance [d] holds, after the
    figures, the opening of the bar, then [min (floor (d / 100)) 40] bars,
    then the very-close tag when [d < 100], the close tag when
    [100 <= d < 300] and no tag when [300 <= d], then the end of line. *)
Theorem printDistance_bar_and_tag :
  forall (B : Type) (HB : I2C B) (d c : Z) (w : World B),
    0 < d < 8000 ->
    printed_by (printDistance d c) w
    = [P_sample c d; P_bar_open]
      ++ List.repeat P_bar (Z.to_nat (Z.min (d / 100) 40))
      ++ (if d <? 100 then [P_very_close]
          else if d <? 300 then [P_close]
          else [])
      ++ [P_newline].
Proof.
  intros B HB d c w Hd.
  apply printed_by_app. rewrite printDistance_console. cbn [snd console].
  rewrite Z.quot_div_nonneg by lia.
  replace (if d / 100 >? 40 then 40 else d / 100) with (Z.min (d / 100) 40);
    [reflexivity |].
  destruct (Z.gtb_spec (d / 100) 40); lia.
Qed.

Lemma printDistance_bar_and_tag_witness :
  0 < 250 < 8000 /\
  printed_by (printDistance 250 2) (script_world [])
  = [P_sample 2 250; P_bar_open; P_bar; P_bar; P_close; P_newline].
Proof.
  assert (Hd : 0 < 250 < 8000) by lia.
  split; [exact Hd |].
  exact (printDistance_bar_and_tag (Traced Script) _ 250 2 (script_world []) Hd).
Defined.

(** ** The polling loop *)

(** C6: on the scenario bus, the five turns of the loop print the
    50 mm sample with the very-close tag, the 250 mm sample with the close
    tag, the 500 mm sample without tag, nothing for 9000 mm, which is
    counted as an error, and the 400 mm sample without tag; the loop ends
    the five turns with [count = 4] and [errors = 1]. *)
Theorem end_to_end_scenario :
  let run (n : nat) := main 0 3 n (script_world scenario_answers) in
  printed_by (main 0 3 5) (script_world scenario_answers)
  = [P_banner_rule; P_banner_title; P_banner_rule; P_i2c_opened 3;
     P_init_start; P_sensor_found 0xEACC; P_wait_firmware; P_firmware_loaded 1;
     P_sensor_ready; P_start_header; P_start_rule;
     P_sample 1 50; P_bar_open; P_very_close; P_newline;
     P_sample 2 250; P_bar_open; P_bar; P_bar; P_close; P_newline;
     P_sample 3 500; P_bar_open; P_bar; P_bar; P_bar; P_bar; P_bar; P_newline;
     P_sample 4 400; P_bar_open; P_bar; P_bar; P_bar; P_bar; P_newline]
  /\ fst (run 3%nat) = inr (mkStats 3 0 800 50 500)
  /\ fst (run 4%nat) = inr (mkStats 3 1 800 50 500)
  /\ fst (run 5%nat) = inr (mkStats 4 1 1200 50 500)
  /\ pending (inner (bus (snd (run 5%nat)))) = [].
Proof. vm_compute. repeat split. Qed.

(** *** One turn *)

Section Loop.

Context {B : Type} `{I2C B}.

Implicit Types (w : World B) (st : Stats) (fd : Z).

Lemma readReg8_console fd reg w : console (snd (readReg8 fd reg w)) = console w.
Proof.
  unfold readReg8, bind, i2cWriteReg8, i2cRead, ret. cbn.
  now destruct (wiringPiI2CRead fd _).
Qed.

Lemma readReg16_console fd reg w : console (snd (readReg16 fd reg w)) = console w.
Proof.
  unfold readReg16, bind, i2cWriteReg8, i2cRead, ret. cbn.
  destruct (wiringPiI2CRead fd _) as [r1 b1]. cbn.
  now destruct (wiringPiI2CRead fd b1).
Qed.

Lemma writeReg8_console fd reg value w :
  console (snd (writeReg8 fd reg value w)) = console w.
Proof. reflexivity. Qed.

(** [getDistance] prints nothing. *)
Lemma getDistance_console fd w : console (snd (getDistance fd w)) = console w.
Proof.
  rewrite getDistance_run.
  destruct (readReg8 fd GPIO_TIO_HV_STATUS w) as [g w1] eqn:H1.
  pose proof (readReg8_console fd GPIO_TIO_HV_STATUS w) as C1.
  rewrite H1 in C1. cbn [snd] in C1.
  destruct (Z.land g 1 =? 0); [exact C1 |].
  destruct (readReg8 fd RESULT_RANGE_STATUS w1) as [s w2] eqn:H2.
  pose proof (readReg8_console fd RESULT_RANGE_STATUS w1) as C2.
  rewrite H2 in C2. cbn [snd] in C2.
  destruct (readReg16 fd RESULT_DISTANCE w2) as [d w3] eqn:H3.
  pose proof (readReg16_console fd RESULT_DISTANCE w2) as C3.
  rewrite H3 in C3. cbn [snd] in C3.
  cbn. congruence.
Qed.

(** [getDistance] returns the sentinel or a distance strictly between 0
    and 8000. *)
Lemma getDistance_range fd w :
  fst (getDistance fd w) = -1 \/ 0 < fst (getDistance fd w) < 8000.
Proof.
  rewrite getDistance_run.
  destruct (readReg8 fd GPIO_TIO_HV_STATUS w) as [g w1].
  destruct (Z.land g 1 =? 0); [now left |].
  destruct (readReg8 fd RESULT_RANGE_STATUS w1) as [s w2].
  destruct (readReg16 fd RESULT_DISTANCE w2) as [d w3].
  destruct (writeReg8 fd SYSTEM_INTERRUPT_CLEAR 1 w3) as [u w4]. cbn [fst].
  destruct (Z.gtb_spec d 0), (Z.ltb_spec d 8000); cbn; try (now left).
  destruct (_ =? 0); [right; lia | now left].
Qed.

(** One turn of the loop, spelled out. *)
Lemma loop_body_run fd st w :
  loop_body fd st w =
  let (d, w1) := getDistance fd w in
  if d >? 0 then
    (mkStats (sint32 (count st + 1)) (errors st) (sint32 (sum st + d))
             (if d <? min_dist st then d else min_dist st)
             (if d >? max_dist st then d else max_dist st),
     mkWorld (bus w1) (console w1 ++ sample_line d (sint32 (count st + 1)))
             (slept w1 + 50000))
  else
    (mkStats (count st) (sint32 (errors st + 1)) (sum st) (min_dist st) (max_dist st),
     mkWorld (bus w1)
             (console w1 ++
                if Z.rem (sint32 (errors st + 1)) 20 =? 0
                then [P_waiting (sint32 (errors st + 1))] else [])
             (slept w1 + 50000)).
Proof.
  unfold loop_body. unfold bind at 1.
  destruct (getDistance fd w) as [d w1].
  destruct (d >? 0).
  - unfold bind at 1. unfold bind at 1. rewrite printDistance_console.
    reflexivity.
  - unfold bind at 1. unfold bind at 1.
    destruct (Z.rem (sint32 (errors st + 1)) 20 =? 0); cbn.
    + reflexivity.
    + now rewrite app_nil_r.
Qed.

End Loop.

(** *** The accumulators over any number of turns *)

Section Statistics.

Context {B : Type} `{I2C B}.

Implicit Types (w : World B) (st : Stats) (fd : Z) (n : nat).

Lemma main_loop_turn fd n st w :
  main_loop fd (S n) st w
  = main_loop fd n (fst (loop_body fd st w)) (snd (loop_body fd st w)).
Proof.
  cbn [main_loop]. unfold bind at 1. now destruct (loop_body fd st w).
Qed.

Lemma readings_turn fd n st w :
  readings fd (S n) st w
  = fst (getDistance fd w)
    :: readings fd n (fst (loop_body fd st w)) (snd (loop_body fd st w)).
Proof. cbn [readings]. now destruct (loop_body fd st w). Qed.

Lemma readings_length fd n : forall st w, length (readings fd n st w) = n.
Proof.
  induction n as [| n IH]; intros st w; [reflexivity |].
  rewrite readings_turn. cbn [length]. now rewrite IH.
Qed.

(** Every reading is the sentinel or lies strictly between 0 and 8000. *)
Lemma readings_range fd n :
  forall st w, Forall (fun d => d = -1 \/ 0 < d < 8000) (readings fd n st w).
Proof.
  induction n as [| n IH]; intros st w; [constructor |].
  rewrite readings_turn. constructor; [apply getDistance_range | apply IH].
Qed.

(** The statistics a turn leaves, by the reading of that turn. *)
Lemma loop_body_stats fd st w :
  fst (loop_body fd st w) =
  let d := fst (getDistance fd w) in
  if d >? 0 then
    mkStats (sint32 (count st + 1)) (errors st) (sint32 (sum st + d))
            (Z.min (min_dist st) d) (Z.max (max_dist st) d)
  else
    mkStats (count st) (sint32 (errors st + 1)) (sum st) (min_dist st) (max_dist st).
Proof.
  rewrite loop_body_run. destruct (getDistance fd w) as [d w1]. cbn [fst].
  destruct (d >? 0); cbn [fst]; [| reflexivity].
  f_equal.
  - destruct (Z.ltb_spec d (min_dist st)); lia.
  - destruct (Z.gtb_spec d (max_dist st)); lia.
Qed.

(** The accumulators after [n] turns that start from any in-range
    statistics. *)
Lemma main_loop_stats_from fd n :
  forall st w,
    let st' := fst (main_loop fd n st w) in
    let ds := readings fd n st w in
    sint32 (count st) = count st ->
    sint32 (errors st) = errors st ->
    sint32 (sum st) = sum st ->
    count st' = sint32 (count st + Z.of_nat (length (accepted ds)))
    /\ errors st' = sint32 (errors st + Z.of_nat (length (no_sample ds)))
    /\ sum st' = sint32 (sum st + total (accepted ds))
    /\ min_dist st' = match accepted ds with
                      | [] => min_dist st
                      | d :: rest => Z.min (min_dist st) (minimum d rest)
                      end
    /\ max_dist st' = match accepted ds with
                      | [] => max_dist st
                      | d :: rest => Z.max (max_dist st) (maximum d rest)
                      end.
Proof.
  induction n as [| n IH]; intros st w st' ds Hc He Hs; subst st' ds.
  - cbn. rewrite !Z.add_0_r. repeat split; congruence.
  - rewrite main_loop_turn, readings_turn.
    pose proof (loop_body_stats fd st w) as Hturn. cbn zeta in Hturn.
    set (d := fst (getDistance fd w)) in *.
    set (st1 := fst (loop_body fd st w)) in *.
    set (w1 := snd (loop_body fd st w)) in *.
    specialize (IH st1 w1). cbn zeta in IH.
    set (rest := readings fd n st1 w1) in *.
    clearbody rest w1 st1 d.
    unfold accepted, no_sample in *. cbn [List.filter].
    destruct (d >? 0) eqn:Hd; cbn [negb]; subst st1.
    + cbn [count errors sum min_dist max_dist] in IH.
      destruct IH as [IHc [IHe [IHs [IHmin IHmax]]]];
        [apply sint32_idem | assumption | apply sint32_idem |].
      rewrite sint32_add_l in IHc, IHs.
      cbn [length total]. rewrite Nat2Z.inj_succ.
      repeat split.
      * rewrite IHc. f_equal. lia.
      * exact IHe.
      * rewrite IHs. f_equal. lia.
      * rewrite IHmin. cbn [minimum].
        destruct (List.filter _ rest); cbn [minimum]; lia.
      * rewrite IHmax. cbn [maximum].
        destruct (List.filter _ rest); cbn [maximum]; lia.
    + cbn [count errors sum min_dist max_dist] in IH.
      destruct IH as [IHc [IHe [IHs [IHmin IHmax]]]];
        [assumption | apply sint32_idem | assumption |].
      rewrite sint32_add_l in IHe.
      cbn [length]. rewrite Nat2Z.inj_succ.
      repeat split; try assumption.
      rewrite IHe. f_equal. lia.
Qed.

End Statistics.

Lemma minimum_le (d : Z) (ds : list Z) : minimum d ds <= d.
Proof. revert d. induction ds as [| e ds IH]; intros d; cbn; [lia |]. specialize (IH e). lia. Qed.

Lemma maximum_ge (d : Z) (ds : list Z) : d <= maximum d ds.
Proof. revert d. induction ds as [| e ds IH]; intros d; cbn; [lia |]. specialize (IH e). lia. Qed.

Lemma accepted_head_range (ds : list Z) (d : Z) (rest : list Z) :
  Forall (fun d => d = -1 \/ 0 < d < 8000) ds ->
  accepted ds = d :: rest -> 0 < d < 8000.
Proof.
  intros Hds Hacc.
  assert (Hin : List.In d (accepted ds)) by (rewrite Hacc; now left).
  unfold accepted in Hin. apply List.filter_In in Hin as [Hin Hpos].
  rewrite List.Forall_forall in Hds. specialize (Hds d Hin). lia.
Qed.

Lemma total_accepted_nonneg (ds : list Z) : 0 <= total (accepted ds).
Proof.
  induction ds as [| d ds IH]; [cbn; lia |].
  unfold accepted in *. cbn [List.filter].
  destruct (Z.gtb_spec d 0); cbn [total]; lia.
Qed.

Lemma total_repeat (d : Z) (n : nat) : total (List.repeat d n) = d * Z.of_nat n.
Proof.
  induction n as [| n IH]; [cbn; lia |].
  cbn [List.repeat total]. rewrite IH. lia.
Qed.

Lemma accepted_repeat (d : Z) (n : nat) :
  0 < d -> accepted (List.repeat d n) = List.repeat d n.
Proof.
  intros Hd. induction n as [| n IH]; [reflexivity |].
  unfold accepted in *. cbn [List.repeat List.filter].
  destruct (Z.gtb_spec d 0); [now rewrite IH | lia].
Qed.

(** *** The steady register file *)

Lemma getDistance_steady (fd : Z) (con : list printf_call) (sl : Z) :
  getDistance fd (mkWorld steady_7999 con sl) = (7999, mkWorld steady_7999 con sl).
Proof. vm_compute. reflexivity. Qed.

Lemma readings_steady (fd : Z) (n : nat) :
  forall (st : Stats) (con : list printf_call) (sl : Z),
    readings fd n st (mkWorld steady_7999 con sl) = List.repeat 7999 n.
Proof.
  induction n as [| n IH]; intros st con sl; [reflexivity |].
  rewrite readings_turn, loop_body_run, getDistance_steady.
  cbn [fst snd List.repeat]. change (7999 >? 0) with true. cbv iota.
  cbn [fst snd bus]. now rewrite IH.
Qed.

(** C10, as stated, fails once the sum of the accepted distances
    leaves the range of [int]: after 268470 samples of 7999 mm the
    accumulator [sum] is not their sum. *)
Lemma statistics_sum_counterexample :
  sum (fst (main_loop 3 (Z.to_nat 268470) initial_stats (fresh steady_7999)))
  <> total (accepted (readings 3 (Z.to_nat 268470) initial_stats (fresh steady_7999))).
Proof.
  set (n := Z.to_nat 268470).
  destruct (main_loop_stats_from 3 n initial_stats (fresh steady_7999))
    as [_ [_ [Hsum _]]]; try reflexivity.
  rewrite Hsum. unfold fresh. rewrite readings_steady.
  rewrite accepted_repeat, total_repeat by lia.
  subst n. rewrite Z2Nat.id by lia.
  vm_compute. discriminate.
Qed.

(** C10, amended: after any number [n] of turns of the loop, started
    from the initial accumulators, [count], [errors] and [sum] are the
    number of accepted samples, the number of no-sample turns and the sum
    of the accepted distances, each reduced to a 32-bit [int]; they are
    these numbers themselves as long as [n], respectively the sum, does
    not exceed [INT_MAX].  [min_dist] and [max_dist] are the smallest and
    the largest accepted distance, or 9999 and 0 when no sample has been
    accepted. *)
Theorem main_loop_statistics :
  forall (B : Type) (HB : I2C B) (fd : Z) (n : nat) (w : World B),
    let st := fst (main_loop fd n initial_stats w) in
    let ds := readings fd n initial_stats w in
    length ds = n
    /\ count st = sint32 (Z.of_nat (length (accepted ds)))
    /\ errors st = sint32 (Z.of_nat (length (no_sample ds)))
    /\ sum st = sint32 (total (accepted ds))
    /\ min_dist st = min_accepted ds
    /\ max_dist st = max_accepted ds
    /\ (Z.of_nat n <= INT_MAX ->
        count st = Z.of_nat (length (accepted ds))
        /\ errors st = Z.of_nat (length (no_sample ds)))
    /\ (total (accepted ds) <= INT_MAX -> sum st = total (accepted ds)).
Proof.
  intros B HB fd n w st ds.
  destruct (main_loop_stats_from fd n initial_stats w)
    as [Hc [He [Hs [Hmin Hmax]]]]; try reflexivity.
  fold st ds in Hc, He, Hs, Hmin, Hmax.
  cbn [initial_stats count errors sum min_dist max_dist] in *.
  rewrite Z.add_0_l in Hc, He, Hs.
  pose proof (readings_length fd n initial_stats w) as Hlen. fold ds in Hlen.
  pose proof (readings_range fd n initial_stats w) as Hrange. fold ds in Hrange.
  assert (Hacc : (length (accepted ds) <= n)%nat)
    by (rewrite <- Hlen; apply List.filter_length_le).
  assert (Hno : (length (no_sample ds) <= n)%nat)
    by (rewrite <- Hlen; apply List.filter_length_le).
  pose proof (total_accepted_nonneg ds) as Htot.
  repeat split; try assumption.
  - rewrite Hmin. unfold min_accepted.
    destruct (accepted ds) as [| d rest] eqn:Hds; [reflexivity |].
    pose proof (accepted_head_range ds d rest Hrange Hds).
    pose proof (minimum_le d rest). lia.
  - rewrite Hmax. unfold max_accepted.
    destruct (accepted ds) as [| d rest] eqn:Hds; [reflexivity |].
    pose proof (accepted_head_range ds d rest Hrange Hds).
    pose proof (maximum_ge d rest). lia.
  - rewrite Hc. apply sint32_small. unfold INT_MAX in *. lia.
  - rewrite He. apply sint32_small. unfold INT_MAX in *. lia.
  - intros Hfit. rewrite Hs. apply sint32_small. unfold INT_MAX in *. lia.
Qed.

Lemma main_loop_statistics_witness :
  Z.of_nat 2 <= INT_MAX
  /\ count (fst (main_loop 3 2 initial_stats
                   (script_world (sample_answers 1 0 50 ++ sample_answers 1 0 9000)))) = 1
  /\ sum (fst (main_loop 3 2 initial_stats
                 (script_world (sample_answers 1 0 50 ++ sample_answers 1 0 9000)))) = 50.
Proof.
  destruct (main_loop_statistics (Traced Script) _ 3 2
              (script_world (sample_answers 1 0 50 ++ sample_answers 1 0 9000)))
    as (_ & _ & _ & _ & _ & _ & Hcount & Hsum).
  assert (Hn : Z.of_nat 2 <= INT_MAX) by (vm_compute; discriminate).
  split; [exact Hn | split].
  - exact (proj1 (Hcount Hn)).
  - apply Hsum. vm_compute. discriminate.
Defined.

(** *** The waiting line *)

Section Waiting.

Context {B : Type} `{I2C B}.

Implicit Types (w : World B) (st : Stats) (fd : Z) (n : nat).

Lemma readings_snoc fd n :
  forall st w,
    readings fd (S n) st w
    = readings fd n st w ++ [fst (getDistance fd (snd (main_loop fd n st w)))].
Proof.
  induction n as [| n IH]; intros st w.
  - rewrite readings_turn. reflexivity.
  - rewrite readings_turn, IH, main_loop_turn, (readings_turn fd n). reflexivity.
Qed.

Lemma sample_line_no_waiting (d c : Z) : existsb is_waiting (sample_line d c) = false.
Proof.
  unfold sample_line. rewrite !existsb_app.
  assert (Hbars : forall k, existsb is_waiting (List.repeat P_bar k) = false)
    by (induction k; [reflexivity | assumption]).
  rewrite Hbars. cbn.
  destruct (d <? 100); [reflexivity |]. now destruct (d <? 300).
Qed.

(** A turn prints the waiting line exactly when it gets no sample and
    the incremented [errors] is a multiple of 20. *)
Lemma loop_body_waiting fd st w :
  existsb is_waiting (printed_by (loop_body fd st) w)
  = negb (fst (getDistance fd w) >? 0)
    && (Z.rem (sint32 (errors st + 1)) 20 =? 0).
Proof.
  pose proof (getDistance_console fd w) as Hcon.
  unfold printed_by. rewrite loop_body_run.
  destruct (getDistance fd w) as [d w1]. cbn [fst snd] in *.
  destruct (d >? 0); cbn [snd console negb andb]; rewrite Hcon, drop_app_length.
  - apply sample_line_no_waiting.
  - now destruct (Z.rem (sint32 (errors st + 1)) 20 =? 0).
Qed.

End Waiting.

Lemma no_sample_snoc (ds : list Z) (d : Z) :
  length (no_sample (ds ++ [d]))
  = (length (no_sample ds) + if d >? 0 then 0 else 1)%nat.
Proof.
  unfold no_sample. rewrite List.filter_app, length_app. cbn [List.filter].
  now destruct (d >? 0).
Qed.

(** C7, as stated, fails: the waiting line follows the total number of
    no-sample turns, not the length of the current run.  After 19 turns
    without data and one sample, the first turn without data prints the
    line although it starts a new run; and after 10 turns without data
    and one sample, the turn that completes a run of 20 prints nothing. *)
Lemma waiting_line_run_counterexample :
  warns 3 20 (script_world interrupted_answers)
    <> run_of_20_completes (readings 3 21 initial_stats (script_world interrupted_answers))
  /\ warns 3 30 (script_world late_run_answers)
    <> run_of_20_completes (readings 3 31 initial_stats (script_world late_run_answers)).
Proof. vm_compute. split; discriminate. Qed.

(** C7, amended: turn [n + 1] of the loop prints the waiting line
    exactly when it gets no sample and the number of no-sample turns so
    far, as counted in the 32-bit [errors], is a multiple of 20; as long as
    the number of turns does not exceed [INT_MAX] that is the number of
    no-sample turns itself.  Accepted samples in between do not restart
    the count. *)
Theorem waiting_line_every_20_errors :
  forall (B : Type) (HB : I2C B) (fd : Z) (n : nat) (w : World B),
    let ds := readings fd (S n) initial_stats w in
    warns fd n w
    = negb (List.last ds 0 >? 0)
      && (Z.rem (sint32 (Z.of_nat (length (no_sample ds)))) 20 =? 0)
    /\ (Z.of_nat (S n) <= INT_MAX ->
        warns fd n w
        = negb (List.last ds 0 >? 0)
          && (Z.of_nat (length (no_sample ds)) mod 20 =? 0)).
Proof.
  intros B HB fd n w ds.
  assert (Hmain : warns fd n w
                  = negb (List.last ds 0 >? 0)
                    && (Z.rem (sint32 (Z.of_nat (length (no_sample ds)))) 20 =? 0)).
  { subst ds. unfold warns. rewrite readings_snoc, List.last_last.
    destruct (main_loop_stats_from fd n initial_stats w)
      as [_ [He _]]; try reflexivity.
    destruct (main_loop fd n initial_stats w) as [st w'] eqn:Hrun.
    cbn [fst snd] in *. rewrite loop_body_waiting, He.
    cbn [initial_stats errors]. rewrite Z.add_0_l, sint32_add_l, no_sample_snoc.
    destruct (fst (getDistance fd w') >? 0); cbn [negb andb]; [reflexivity |].
    do 3 f_equal. lia. }
  split; [exact Hmain |].
  intros Hfit. rewrite Hmain. f_equal.
  assert (Hle : (length (no_sample ds) <= S n)%nat).
  { rewrite <- (readings_length fd (S n) initial_stats w).
    apply List.filter_length_le. }
  rewrite sint32_small by (unfold INT_MAX in *; lia).
  rewrite Z.rem_mod_nonneg by lia. reflexivity.
Qed.

Lemma waiting_line_every_20_errors_witness :
  Z.of_nat 21 <= INT_MAX /\ warns 3 20 (script_world interrupted_answers) = true.
Proof.
  assert (Hn : Z.of_nat 21 <= INT_MAX) by (vm_compute; discriminate).
  split; [exact Hn |].
  rewrite (proj2 (waiting_line_every_20_errors (Traced Script) _ 3 20
                    (script_world interrupted_answers)) Hn).
  reflexivity.
Defined.

(** * Further properties of the shim, the start-up and the loop *)

(** ** 8-bit register access *)

Lemma regfile_pointer_of (reg : Z) :
  0 <= reg < 65536 ->
  uint8 (Z.land (Z.shiftr reg 8) 0xFF) * 256 + uint8 (Z.land reg 0xFF) = reg.
Proof.
  intros Hreg. rewrite !uint8_byte, shiftr_8.
  rewrite (Z.mod_small (reg / 256)) by
    (split; [apply Z.div_pos; lia | apply Z.div_lt_upper_bound; lia]).
  pose proof (Z.div_mod reg 256). lia.
Qed.

(** X1: on a register file, [writeReg8] of [value] to the 16-bit
    register [reg] stores [value mod 256] in cell [reg] and changes no
    other cell, leaves the index on the next cell, prints nothing, and a
    following [readReg8] of [reg] returns the stored byte. *)
Theorem writeReg8_readReg8_register_file :
  forall (fd reg value : Z) (rf : World RegFile),
    0 <= reg < 65536 ->
    let rf' := snd (writeReg8 fd reg value rf) in
    cells (bus rf') = <[reg := value mod 256]> (cells (bus rf))
    /\ pointer (bus rf') = (reg + 1) mod 65536
    /\ console rf' = console rf
    /\ fst (readReg8 fd reg rf') = value mod 256.
Proof.
  intros fd reg value rf Hreg rf'. subst rf'.
  unfold readReg8, writeReg8, bind, i2cWriteReg8, i2cWrite, i2cRead, ret. cbn.
  rewrite (uint16_small reg) by assumption.
  rewrite regfile_pointer_of by assumption.
  rewrite lookup_insert_eq. cbn.
  rewrite uint8_byte. unfold uint8, uint16. rewrite !Z.mod_mod by lia.
  repeat split.
Qed.

Lemma writeReg8_readReg8_register_file_witness :
  0 <= 0x0087 < 65536
  /\ fst (readReg8 3 0x0087 (snd (writeReg8 3 0x0087 0x40 (fresh (mkRegFile 0 ∅))))) = 0x40.
Proof.
  assert (Hreg : 0 <= 0x0087 < 65536) by lia.
  split; [exact Hreg |].
  exact (proj2 (proj2 (proj2 (writeReg8_readReg8_register_file 3 0x0087 0x40
                                (fresh (mkRegFile 0 ∅)) Hreg)))).
Defined.

(** ** Reads over any bus *)

(** X2: whatever [int]s the bus returns, [readReg8] yields the low
    eight bits of the one it read and [readReg16] the low eight bits of
    the first as high byte and of the second as low byte, so the results
    lie in 0..255 and 0..65535; each makes the register selection and
    then one, respectively two, reads and no other call. *)
Theorem reads_keep_low_bytes :
  forall (B : Type) (HB : I2C B) (fd reg : Z) (w : World (Traced B)),
    0 <= reg < 65536 ->
    (exists r : Z,
       calls (bus (snd (readReg8 fd reg w))) = calls (bus w) ++ [select reg; CallRead r]
       /\ fst (readReg8 fd reg w) = r mod 256
       /\ 0 <= fst (readReg8 fd reg w) < 256)
    /\ (exists r1 r2 : Z,
          calls (bus (snd (readReg16 fd reg w)))
            = calls (bus w) ++ [select reg; CallRead r1; CallRead r2]
          /\ fst (readReg16 fd reg w) = (r1 mod 256) * 256 + r2 mod 256
          /\ 0 <= fst (readReg16 fd reg w) < 65536).
Proof.
  intros B HB fd reg w Hreg. split.
  - rewrite readReg8_traced. cbn zeta.
    destruct (wiringPiI2CRead fd _) as [r b]. exists r. cbn [fst snd bus calls].
    rewrite (uint16_small reg), uint8_byte by assumption.
    repeat split; apply Z.mod_pos_bound; lia.
  - rewrite readReg16_traced. cbn zeta.
    destruct (wiringPiI2CRead fd _) as [r1 b1].
    destruct (wiringPiI2CRead fd b1) as [r2 b2]. exists r1, r2.
    cbn [fst snd bus calls].
    rewrite (uint16_small reg), !uint8_byte by assumption.
    pose proof (Z.mod_pos_bound r1 256). pose proof (Z.mod_pos_bound r2 256).
    rewrite lor_shiftl_8 by lia. rewrite uint16_small by lia.
    repeat split; lia.
Qed.

Lemma reads_keep_low_bytes_witness :
  0 <= 0x0096 < 65536
  /\ fst (readReg16 3 0x0096 (script_world [-1; 0x13F])) = 0xFF3F.
Proof.
  assert (Hreg : 0 <= 0x0096 < 65536) by lia.
  split; [exact Hreg |].
  destruct (proj2 (reads_keep_low_bytes Script _ 3 0x0096
                     (script_world [-1; 0x13F]) Hreg))
    as (r1 & r2 & Hlog & Hval & _).
  vm_compute in Hlog. inversion Hlog; subst r1 r2.
  rewrite Hval. reflexivity.
Defined.

(** ** The per-sample read over any bus *)

Section SampleRead.

Context {B : Type} `{I2C B}.

Implicit Types (w : World B) (fd reg : Z).

Lemma readReg8_slept fd reg w : slept (snd (readReg8 fd reg w)) = slept w.
Proof.
  unfold readReg8, bind, i2cWriteReg8, i2cRead, ret. cbn.
  now destruct (wiringPiI2CRead fd _).
Qed.

Lemma readReg16_slept fd reg w : slept (snd (readReg16 fd reg w)) = slept w.
Proof.
  unfold readReg16, bind, i2cWriteReg8, i2cRead, ret. cbn.
  destruct (wiringPiI2CRead fd _) as [r1 b1]. cbn.
  now destruct (wiringPiI2CRead fd b1).
Qed.

Lemma getDistance_slept fd w : slept (snd (getDistance fd w)) = slept w.
Proof.
  rewrite getDistance_run.
  destruct (readReg8 fd GPIO_TIO_HV_STATUS w) as [g w1] eqn:H1.
  pose proof (readReg8_slept fd GPIO_TIO_HV_STATUS w) as S1.
  rewrite H1 in S1. cbn [snd] in S1.
  destruct (Z.land g 1 =? 0); [exact S1 |].
  destruct (readReg8 fd RESULT_RANGE_STATUS w1) as [s w2] eqn:H2.
  pose proof (readReg8_slept fd RESULT_RANGE_STATUS w1) as S2.
  rewrite H2 in S2. cbn [snd] in S2.
  destruct (readReg16 fd RESULT_DISTANCE w2) as [d w3] eqn:H3.
  pose proof (readReg16_slept fd RESULT_DISTANCE w2) as S3.
  rewrite H3 in S3. cbn [snd] in S3.
  cbn. congruence.
Qed.

End SampleRead.

(** X3: over every bus, whatever it answers, [getDistance] returns the
    sentinel [-1] or a distance from 1 to 7999, never 0 and never 8000
    or more; it prints nothing and spends no time in [usleep]. *)
Theorem getDistance_result_range :
  forall (B : Type) (HB : I2C B) (fd : Z) (w : World B),
    (fst (getDistance fd w) = -1 \/ 0 < fst (getDistance fd w) < 8000)
    /\ console (snd (getDistance fd w)) = console w
    /\ slept (snd (getDistance fd w)) = slept w.
Proof.
  intros B HB fd w. split; [| split].
  - apply getDistance_range.
  - apply getDistance_console.
  - apply getDistance_slept.
Qed.

(** X4: on a bus on which every read fails with [-1], the failure is
    not told apart from data: [readReg8] yields 0xFF and [readReg16]
    0xFFFF; [initSensor] reports an unknown sensor with ID 0xFFFF and
    returns [-1] after the identification read; [getDistance] takes the
    ready bit as set, goes through the whole cycle, clears the interrupt
    once and returns [-1]. *)
Theorem dead_bus_reads_as_data :
  forall (fd reg : Z) (made : list bus_call) (con : list printf_call) (sl : Z),
    let w := mkWorld (dead_bus made) con sl in
    fst (readReg8 fd reg w) = 0xFF
    /\ fst (readReg16 fd reg w) = 0xFFFF
    /\ initSensor fd w
       = (-1, mkWorld (dead_bus (made ++ [select IDENTIFICATION_MODEL_ID;
                                          CallRead (-1); CallRead (-1)]))
                      (con ++ [P_init_start; P_unknown_sensor 0xFFFF]) sl)
    /\ getDistance fd w
       = (-1, mkWorld (dead_bus (made ++ [select GPIO_TIO_HV_STATUS; CallRead (-1);
                                          select RESULT_RANGE_STATUS; CallRead (-1);
                                          select RESULT_DISTANCE;
                                          CallRead (-1); CallRead (-1);
                                          select SYSTEM_INTERRUPT_CLEAR; CallWrite 0x01]))
                      con sl).
Proof.
  intros fd reg made con sl w. subst w. unfold dead_bus.
  split; [| split; [| split]].
  - rewrite readReg8_traced. reflexivity.
  - rewrite readReg16_traced. reflexivity.
  - unfold initSensor. rewrite bind_run. cbn [printf].
    rewrite bind_run, readReg16_traced. cbn zeta.
    cbn [bus inner calls console slept wiringPiI2CRead wiringPiI2CWriteReg8
         Traced_I2C Script_I2C pending].
    change (uint16 (Z.lor (Z.shiftl (uint8 (Z.land (-1) 255)) 8)
                          (uint8 (Z.land (-1) 255)))) with 0xFFFF.
    change (65535 =? 60108) with false. cbv iota.
    rewrite bind_run. cbn [printf ret bus console slept].
    now rewrite <- app_assoc.
  - rewrite getDistance_run, readReg8_traced. cbn zeta.
    cbn [bus inner calls console slept wiringPiI2CRead wiringPiI2CWriteReg8
         Traced_I2C Script_I2C pending].
    change (Z.land (uint8 (Z.land (-1) 255)) 1 =? 0) with false. cbv iota.
    rewrite readReg8_traced. cbn zeta.
    cbn [bus inner calls console slept wiringPiI2CRead wiringPiI2CWriteReg8
         Traced_I2C Script_I2C pending].
    rewrite readReg16_traced. cbn zeta.
    cbn [bus inner calls console slept wiringPiI2CRead wiringPiI2CWriteReg8
         Traced_I2C Script_I2C pending].
    rewrite writeReg8_traced.
    cbn [bus inner calls console slept wiringPiI2CWrite wiringPiI2CWriteReg8
         Traced_I2C Script_I2C pending].
    rewrite <- !app_assoc. reflexivity.
Qed.

(** ** The start-up over any bus *)

(** The firmware wait in full: the polls it makes, the counter it leaves
    with, the time it sleeps and the line it prints. *)
Lemma await_firmware_polls {B : Type} `{I2C B} (fd : Z) (n : nat) :
  forall (i : Z) (w : World (Traced B)),
    0 <= i -> i + Z.of_nat n <= INT_MAX ->
    exists rs : list Z,
      let run := await_firmware fd n i w in
      calls (bus (snd run)) = calls (bus w) ++ flat_map firmware_poll rs
      /\ i <= fst run <= i + Z.of_nat n
      /\ Z.of_nat (length rs) = Z.min (Z.of_nat n) (fst run - i + 1)
      /\ slept (snd run) = slept w + 10000 * (fst run - i)
      /\ console (snd run)
         = console w ++ if fst run <? i + Z.of_nat n
                        then [P_firmware_loaded (fst run + 1)] else [].
Proof.
  induction n as [| n IH]; intros i w Hi Hmax.
  - exists []. cbn [await_firmware ret fst snd flat_map length].
    rewrite !app_nil_r, Z.add_0_r, Z.ltb_irrefl, app_nil_r.
    repeat split; lia.
  - rewrite await_firmware_turn, readReg8_traced. cbn zeta.
    destruct (wiringPiI2CRead fd _) as [r b].
    cbn [bus console slept].
    destruct (Z.land (uint8 (Z.land r 255)) 1 =? 0).
    + rewrite sint32_small by (unfold INT_MAX in *; lia).
      destruct (IH (i + 1) (mkWorld (mkTraced b
                     (calls (bus w) ++ [select (uint16 FIRMWARE_SYSTEM_STATUS); CallRead r]))
                     (console w) (slept w + 10000))) as [rs IHrun]; try lia.
      cbn zeta in IHrun. cbn [bus calls console slept] in IHrun.
      destruct IHrun as (Hlog & Hrange & Hlen & Hslept & Hcon).
      exists (r :: rs). cbn zeta. cbn [flat_map length].
      rewrite Hlog, Hslept, Hcon, Nat2Z.inj_succ.
      replace (i + 1 + Z.of_nat n) with (i + Z.succ (Z.of_nat n)) by lia.
      repeat split; try lia.
      now rewrite <- app_assoc.
    + exists [r]. cbn zeta. cbn [fst snd bus calls console slept flat_map length].
      rewrite app_nil_r, sint32_small by (unfold INT_MAX in *; lia).
      destruct (Z.ltb_spec i (i + Z.of_nat (S n))); [| lia].
      repeat split; lia.
Qed.

(** All of [initSensor] on a recording bus. *)
Lemma initSensor_full {B : Type} `{I2C B} (fd : Z) (w : World (Traced B)) :
  exists (r1 r2 : Z) (rs : list Z),
    let id := uint16 (Z.lor (Z.shiftl (uint8 (Z.land r1 0xFF)) 8)
                            (uint8 (Z.land r2 0xFF))) in
    let run := initSensor fd w in
    (length rs <= 100)%nat
    /\ (fst run = 0 \/ fst run = -1)
    /\ calls (bus (snd run))
       = calls (bus w) ++ [select IDENTIFICATION_MODEL_ID; CallRead r1; CallRead r2]
         ++ (if id =? 0xEACC
             then reset_calls ++ flat_map firmware_poll rs
                  ++ (if fst run =? 0 then config_calls else [])
             else [])
    /\ slept (snd run)
       = slept w + (if id =? 0xEACC
                    then 20000 + 10000 * (if fst run =? 0
                                          then Z.of_nat (length rs) - 1 else 100)
                    else 0)
    /\ (id <> 0xEACC -> fst run = -1)
    /\ (fst run = 0 -> rs <> [])
    /\ (id = 0xEACC -> fst run = -1 -> length rs = 100%nat).
Proof.
  unfold initSensor. rewrite bind_run. cbn [printf].
  rewrite bind_run, !readReg16_traced. cbn zeta. cbn [bus console slept].
  destruct (wiringPiI2CRead fd _) as [r1 b1].
  destruct (wiringPiI2CRead fd b1) as [r2 b2].
  set (id := uint16 (Z.lor (Z.shiftl (uint8 (Z.land r1 255)) 8) (uint8 (Z.land r2 255)))).
  exists r1, r2.
  destruct (Z.eqb_spec id 60108) as [Hid | Hid].
  - rewrite bind_run. cbn [printf bus console slept].
    rewrite bind_run, writeReg8_traced. cbn [usleep bus inner calls console slept].
    rewrite bind_run. cbn [usleep bus inner calls console slept].
    rewrite bind_run, writeReg8_traced. cbn [usleep bus inner calls console slept].
    rewrite bind_run. cbn [usleep bus inner calls console slept].
    rewrite bind_run. cbn [printf bus inner calls console slept].
    rewrite bind_run.
    match goal with |- context [await_firmware fd 100 0 ?w0] => set (w5 := w0) end.
    destruct (await_firmware_polls fd 100 0 w5) as [rs Hrun];
      [lia | unfold INT_MAX; lia |].
    cbn zeta in Hrun. destruct Hrun as (Hlog & Hrange & Hlen & Hslept & _).
    destruct (await_firmware fd 100 0 w5) as [i w6]. cbn [fst snd] in *.
    subst w5. cbn [bus calls slept] in Hlog, Hslept.
    exists rs. cbn zeta. fold id.
    assert (Heq : (id =? 60108) = true) by now apply Z.eqb_eq.
    rewrite Heq.
    destruct (Z.geb_spec i 100) as [Hi | Hi].
    + rewrite bind_run. cbn [printf ret fst snd bus slept].
      change (-1 =? 0) with false. cbv iota.
      split; [lia | split; [now right | split; [| split; [lia | split; [| split]]]]].
      * rewrite Hlog, app_nil_r. unfold reset_calls. now rewrite <- !app_assoc.
      * intros Hne. contradiction.
      * discriminate.
      * intros _ _. lia.
    + do 3 (rewrite bind_run, writeReg8_traced; cbn [bus inner calls console slept]).
      do 2 (rewrite bind_run, writeReg16_traced; cbn [bus inner calls console slept]).
      do 2 (rewrite bind_run, writeReg8_traced; cbn [bus inner calls console slept]).
      rewrite bind_run. cbn [printf ret fst snd bus calls slept].
      change (0 =? 0) with true. cbv iota.
      split; [lia | split; [now left | split; [| split; [lia | split; [| split]]]]].
      * rewrite Hlog. unfold reset_calls, config_calls.
        rewrite <- !app_assoc. reflexivity.
      * intros Hne. contradiction.
      * intros _ ->. cbn in Hlen. lia.
      * discriminate.
  - exists []. cbn zeta. fold id.
    assert (Heq : (id =? 60108) = false) by now apply Z.eqb_neq.
    rewrite Heq, bind_run.
    cbn [printf ret fst snd bus calls console slept length].
    split; [lia | split; [now right | split; [| split; [lia | split; [| split]]]]].
    + reflexivity.
    + reflexivity.
    + discriminate.
    + intros Hmatch. contradiction.
Qed.

Lemma selections_polls_other (reg : Z) (rs : list Z) :
  bus_call_eqb (select FIRMWARE_SYSTEM_STATUS) (select reg) = false ->
  selections reg (flat_map firmware_poll rs) = 0%nat.
Proof.
  intros Hother. induction rs as [| r rs IH]; [reflexivity |].
  cbn [flat_map firmware_poll app]. rewrite !selections_cons, Hother, IH.
  reflexivity.
Qed.

(** X5: over every bus [initSensor] returns 0 or [-1].  When it returns
    0 the last sixteen calls it made are the configuration writes, in the
    order of the source and ending with the interrupt clear; when it
    returns [-1] it has selected none of the configuration registers. *)
Theorem initSensor_result_and_configuration :
  forall (B : Type) (HB : I2C B) (fd : Z) (w : World (Traced B)),
    let run := initSensor fd w in
    (fst run = 0 \/ fst run = -1)
    /\ exists emitted : list bus_call,
         calls (bus (snd run)) = calls (bus w) ++ emitted
         /\ if fst run =? 0
            then exists before : list bus_call, emitted = before ++ config_calls
            else Forall (fun reg => selections reg emitted = 0%nat)
                   [RANGE_CONFIG_VCSEL_PERIOD_A; RANGE_CONFIG_VCSEL_PERIOD_B;
                    RANGE_CONFIG_VALID_PHASE_HIGH; RANGE_CONFIG_TIMEOUT_MACROP_A;
                    RANGE_CONFIG_TIMEOUT_MACROP_B; SYSTEM_INTERRUPT_CONFIG_GPIO;
                    SYSTEM_INTERRUPT_CLEAR].
Proof.
  intros B HB fd w run.
  destruct (initSensor_full fd w) as (r1 & r2 & rs & Hfull).
  cbn zeta in Hfull. fold run in Hfull.
  destruct Hfull as (_ & Hres & Hlog & _ & Hid & _ & _).
  split; [exact Hres |].
  eexists. split; [exact Hlog |].
  destruct (Z.eqb_spec (uint16 (Z.lor (Z.shiftl (uint8 (Z.land r1 255)) 8)
                                      (uint8 (Z.land r2 255)))) 60108)
    as [Hmatch | Hdiffer].
  - destruct (fst run =? 0).
    + eexists. rewrite !app_assoc. reflexivity.
    + rewrite app_nil_r.
      repeat (apply List.Forall_cons;
              [cbn [app reset_calls];
               rewrite !selections_cons, selections_polls_other by reflexivity;
               reflexivity |]).
      apply List.Forall_nil.
  - rewrite (Hid Hdiffer). cbn [Z.eqb].
    repeat (apply List.Forall_cons; [reflexivity |]). apply List.Forall_nil.
Qed.

(** X6: the time [initSensor] spends in [usleep], by its result and the
    number [p] of firmware polls it made, over every bus: a successful
    start-up made between 1 and 100 polls and slept 20 ms for the reset
    plus 10 ms for every poll but the last; a failed one either made no
    poll and did not sleep (wrong model ID) or made 100 polls and slept
    1.02 s (firmware timeout). *)
Theorem initSensor_startup_time :
  forall (B : Type) (HB : I2C B) (fd : Z) (w : World (Traced B)),
    let run := initSensor fd w in
    exists emitted : list bus_call,
      calls (bus (snd run)) = calls (bus w) ++ emitted
      /\ let p := Z.of_nat (selections FIRMWARE_SYSTEM_STATUS emitted) in
         let elapsed := slept (snd run) - slept w in
         if fst run =? 0
         then 1 <= p <= 100 /\ elapsed = 20000 + 10000 * (p - 1)
         else (p = 0 /\ elapsed = 0) \/ (p = 100 /\ elapsed = 1020000).
Proof.
  intros B HB fd w run.
  destruct (initSensor_full fd w) as (r1 & r2 & rs & Hfull).
  cbn zeta in Hfull. fold run in Hfull.
  destruct Hfull as (Hlen & Hres & Hlog & Hslept & Hid & Hpolled & Htimeout).
  eexists. split; [exact Hlog |]. cbn zeta.
  rewrite Hslept.
  destruct (Z.eqb_spec (uint16 (Z.lor (Z.shiftl (uint8 (Z.land r1 255)) 8)
                                      (uint8 (Z.land r2 255)))) 60108)
    as [Hmatch | Hdiffer].
  - specialize (Htimeout Hmatch).
    rewrite !selections_app, selections_firmware_polls.
    change (selections FIRMWARE_SYSTEM_STATUS
              [select IDENTIFICATION_MODEL_ID; CallRead r1; CallRead r2]) with 0%nat.
    change (selections FIRMWARE_SYSTEM_STATUS reset_calls) with 0%nat.
    destruct (Z.eqb_spec (fst run) 0) as [Hok | Hfail].
    + specialize (Hpolled Hok).
      change (selections FIRMWARE_SYSTEM_STATUS config_calls) with 0%nat.
      destruct rs as [| r rs]; [contradiction |]. cbn [length] in *. lia.
    + right. destruct Hres as [Hres | Hres]; [contradiction |].
      rewrite (Htimeout Hres).
      change (selections FIRMWARE_SYSTEM_STATUS []) with 0%nat. lia.
  - rewrite (Hid Hdiffer). cbn [Z.eqb]. left.
    rewrite app_nil_r.
    change (selections FIRMWARE_SYSTEM_STATUS
              [select IDENTIFICATION_MODEL_ID; CallRead r1; CallRead r2]) with 0%nat.
    lia.
Qed.

(** X7: the firmware wait stops at the first poll answered with bit 0
    set.  On a bus that identifies as a VL53L1X and answers [k < 100]
    polls with bit 0 unset and the next with bit 0 set, [initSensor]
    returns 0, having printed attempt number [k + 1], slept
    [20 + 10 k] ms, made exactly the identification read, the reset, those
    [k + 1] polls and the configuration, and read nothing further. *)
Theorem initSensor_ready_at_poll :
  forall (fd s : Z) (pre rest : list Z),
    (length pre < 100)%nat ->
    Forall (fun r => Z.land r 0x01 = 0) pre ->
    Z.land s 0x01 <> 0 ->
    initSensor fd (script_world ([0xEA; 0xCC] ++ pre ++ [s] ++ rest))
    = (0,
       mkWorld
         (mkTraced (mkScript rest)
            ([select IDENTIFICATION_MODEL_ID; CallRead 0xEA; CallRead 0xCC]
             ++ reset_calls ++ flat_map firmware_poll (pre ++ [s]) ++ config_calls))
         [P_init_start; P_sensor_found 0xEACC; P_wait_firmware;
          P_firmware_loaded (Z.of_nat (length pre) + 1); P_sensor_ready]
         (20000 + 10000 * Z.of_nat (length pre))).
Proof.
  intros fd s pre rest Hlen Hpre Hs.
  cbn [app]. rewrite initSensor_reaches_wait.
  destruct (Nat.le_exists_sub (S (length pre)) 100 Hlen) as [m [Hm _]].
  rewrite (await_firmware_idle_100 fd pre (s :: rest) (S m)) by (try assumption; lia).
  rewrite await_firmware_turn, readReg8_traced.
  cbn zeta. cbn [bus inner calls console slept wiringPiI2CRead wiringPiI2CWriteReg8
                 Traced_I2C Script_I2C pending].
  rewrite bit0_byte.
  destruct (Z.eqb_spec (Z.land s 1) 0) as [Hz | _]; [contradiction |].
  destruct (Z.geb_spec (Z.of_nat (length pre)) 100) as [Hge | _]; [lia |].
  rewrite sint32_small by (unfold INT_MAX; lia).
  cbn [bus inner calls console slept app].
  rewrite flat_map_app. cbn [flat_map firmware_poll app].
  unfold reset_calls, config_calls.
  rewrite <- !app_assoc. reflexivity.
Qed.

Lemma initSensor_ready_at_poll_witness :
  (length [0; 2] < 100)%nat
  /\ fst (initSensor 3 (script_world ([0xEA; 0xCC] ++ [0; 2] ++ [1] ++ [7]))) = 0.
Proof.
  assert (Hlen : (length [0; 2] < 100)%nat) by (cbn; lia).
  assert (Hpre : Forall (fun r => Z.land r 0x01 = 0) [0; 2])
    by (repeat apply List.Forall_cons; try apply List.Forall_nil; reflexivity).
  assert (Hs : Z.land 1 0x01 <> 0) by (vm_compute; discriminate).
  split; [exact Hlen |].
  rewrite (initSensor_ready_at_poll 3 1 [0; 2] [7] Hlen Hpre Hs). reflexivity.
Defined.

(** ** Starting and stopping *)

Lemma startRanging_traced {B : Type} `{I2C B} (fd : Z) (w : World (Traced B)) :
  exists b : B,
    startRanging fd w
    = (tt, mkWorld (mkTraced b (calls (bus w) ++ start_calls))
                   (console w) (slept w + 50000)).
Proof.
  unfold startRanging. rewrite bind_run, writeReg8_traced.
  cbn [bus inner calls console slept].
  rewrite bind_run, writeReg8_traced. cbn [usleep bus inner calls console slept].
  eexists. unfold start_calls. rewrite <- !app_assoc. reflexivity.
Qed.

(** X8: [startRanging] writes 0x01 to the interrupt-clear register, then
    0x40 to the mode-start register, and sleeps 50 ms; [stopRanging] makes
    the single write of 0x00 to the mode-start register.  On a register
    file, stopping after starting leaves 0 in the mode-start register, 1
    in the interrupt-clear register and every other cell as it was. *)
Theorem start_then_stop_ranging :
  forall (B : Type) (HB : I2C B) (fd : Z) (w : World (Traced B)) (rf : World RegFile),
    calls (bus (snd (startRanging fd w))) = calls (bus w) ++ start_calls
    /\ slept (snd (startRanging fd w)) = slept w + 50000
    /\ calls (bus (snd (stopRanging fd w)))
       = calls (bus w) ++ [select SYSTEM_MODE_START; CallWrite 0x00]
    /\ slept (snd (stopRanging fd w)) = slept w
    /\ cells (bus (snd (startRanging fd rf)))
       = <[SYSTEM_MODE_START := 0x40]> (<[SYSTEM_INTERRUPT_CLEAR := 0x01]> (cells (bus rf)))
    /\ cells (bus (snd (stopRanging fd (snd (startRanging fd rf)))))
       = <[SYSTEM_MODE_START := 0x00]> (<[SYSTEM_INTERRUPT_CLEAR := 0x01]> (cells (bus rf))).
Proof.
  intros B HB fd w rf.
  destruct (startRanging_traced fd w) as [b Hstart]. rewrite Hstart.
  unfold stopRanging. rewrite writeReg8_traced. cbn [snd bus calls slept].
  repeat split.
  unfold startRanging, writeReg8, bind, i2cWriteReg8, i2cWrite, usleep. cbn.
  rewrite insert_insert_eq. reflexivity.
Qed.

(** ** The program as a whole *)

Section Main.

Context {B : Type} `{I2C B}.

Implicit Types (w : World B) (st : Stats) (fd : Z) (n : nat).

Lemma print_checklist_console (lines : list nat) w :
  print_checklist lines w
  = (tt, mkWorld (bus w) (console w ++ map P_checklist lines) (slept w)).
Proof.
  revert w. induction lines as [| l lines IH]; intros w.
  - cbn. rewrite app_nil_r. now destruct w.
  - cbn [print_checklist]. unfold bind at 1. cbn [printf].
    rewrite IH. cbn [bus console slept]. rewrite <- app_assoc. reflexivity.
Qed.

(** [main] spelled out over the worlds it goes through. *)
Lemma main_run (setup_result open_result : Z) n w :
  main setup_result open_result n w =
  if setup_result =? -1 then
    (inl 1, mkWorld (bus w) (console w ++ banner ++ [P_wiringpi_error]) (slept w))
  else if open_result =? -1 then
    (inl 1, mkWorld (bus w)
              (console w ++ banner ++ [P_i2c_open_error]
                 ++ map P_checklist (seq 1 10))
              (slept w))
  else
    let (rc, w1) :=
      initSensor open_result
        (mkWorld (bus w) (console w ++ banner ++ [P_i2c_opened open_result]) (slept w)) in
    if rc =? 0 then
      let (_, w2) := startRanging open_result w1 in
      let (st, w3) :=
        main_loop open_result n initial_stats
          (mkWorld (bus w2) (console w2 ++ [P_start_header; P_start_rule]) (slept w2)) in
      (inr st, w3)
    else
      (inl 1, mkWorld (bus w1) (console w1 ++ [P_init_error]) (slept w1)).
Proof.
  unfold main, banner.
  unfold bind at 1. cbn [printf]. unfold bind at 1. cbn [printf bus console slept].
  unfold bind at 1. cbn [printf bus console slept].
  destruct (setup_result =? -1).
  - unfold bind, printf, ret. cbn [bus console slept].
    rewrite <- !app_assoc. reflexivity.
  - destruct (open_result =? -1).
    + unfold bind at 1. cbn [printf bus console slept].
      unfold bind at 1. rewrite print_checklist_console.
      unfold ret. cbn [bus console slept]. rewrite <- !app_assoc. reflexivity.
    + unfold bind at 1. cbn [printf bus console slept].
      rewrite <- !app_assoc. cbn [app].
      unfold bind at 1.
      destruct (initSensor open_result _) as [rc w1].
      destruct (rc =? 0); cbn [negb].
      * unfold bind at 1. destruct (startRanging open_result w1) as [u w2].
        unfold bind at 1. cbn [printf]. unfold bind at 1. cbn [printf bus console slept].
        unfold bind at 1. rewrite <- !app_assoc. cbn [app].
        destruct (main_loop open_result n initial_stats _) as [st w3]. reflexivity.
      * unfold bind, printf, ret. reflexivity.
Qed.

End Main.

(** X9: [main] ends a failed start-up with exit status 1 and no other
    status, and otherwise is still in its loop after any number of turns.
    When [wiringPiSetup] or [wiringPiI2CSetup] returns [-1] it leaves the
    bus untouched and does not sleep; it prints the banner and the error
    line, followed for a failed open by the ten lines of the checklist. *)
Theorem main_exit_status :
  forall (B : Type) (HB : I2C B) (setup_result open_result : Z) (n : nat) (w : World B),
    let run := main setup_result open_result n w in
    (fst run = inl 1 \/ exists st : Stats, fst run = inr st)
    /\ (setup_result = -1 ->
        run = (inl 1, mkWorld (bus w) (console w ++ banner ++ [P_wiringpi_error])
                              (slept w)))
    /\ (setup_result <> -1 -> open_result = -1 ->
        run = (inl 1, mkWorld (bus w)
                        (console w ++ banner ++ [P_i2c_open_error]
                           ++ map P_checklist (seq 1 10))
                        (slept w)))
    /\ (setup_result <> -1 -> open_result <> -1 ->
        exited (fst run)
        = negb (fst (initSensor open_result
                       (mkWorld (bus w)
                          (console w ++ banner ++ [P_i2c_opened open_result])
                          (slept w))) =? 0)).
Proof.
  intros B HB setup_result open_result n w run. subst run.
  rewrite main_run.
  destruct (Z.eqb_spec setup_result (-1)) as [Hs | Hs].
  - repeat split; try (intros; contradiction); now left.
  - destruct (Z.eqb_spec open_result (-1)) as [Ho | Ho].
    + repeat split; try (intros; contradiction); now left.
    + destruct (initSensor open_result _) as [rc w1]. cbn [fst].
      destruct (rc =? 0).
      * destruct (startRanging open_result w1) as [u w2].
        destruct (main_loop open_result n initial_stats _) as [st w3].
        repeat split; try (intros; contradiction).
        right. now exists st.
      * repeat split; try (intros; contradiction). now left.
Qed.

Lemma main_exit_status_witness :
  main (-1) 3 5 (script_world [])
  = (inl 1, mkWorld (bus (script_world []))
              (console (script_world []) ++ banner ++ [P_wiringpi_error])
              (slept (script_world [])))
  /\ fst (main 0 (-1) 5 (script_world [])) = inl 1
  /\ exited (fst (main 0 3 5 (script_world scenario_answers))) = false.
Proof.
  split; [| split].
  - exact (proj1 (proj2 (main_exit_status (Traced Script) _ (-1) 3 5 (script_world [])))
             eq_refl).
  - assert (Hs : 0 <> -1) by discriminate.
    rewrite (proj1 (proj2 (proj2 (main_exit_status (Traced Script) _ 0 (-1) 5
                                    (script_world [])))) Hs eq_refl).
    reflexivity.
  - assert (Hs : 0 <> -1) by discriminate.
    assert (Ho : 3 <> -1) by discriminate.
    rewrite (proj2 (proj2 (proj2 (main_exit_status (Traced Script) _ 0 3 5
                                    (script_world scenario_answers)))) Hs Ho).
    reflexivity.
Defined.

(** ** What the loop does to the bus, the clock and the console *)

Lemma reg8_writes_no_select (reg value : Z) (l rest : list bus_call) :
  selections reg l = 0%nat ->
  reg8_writes reg value (l ++ rest) = reg8_writes reg value rest.
Proof.
  induction l as [| c l IH]; intros Hsel; [reflexivity |].
  rewrite selections_cons in Hsel.
  destruct (bus_call_eqb c (select reg)) eqn:Hc; [discriminate |].
  cbn [app reg8_writes]. rewrite Hc. cbn [andb].
  rewrite IH by exact Hsel.
  now destruct (l ++ rest) as [| [] ?].
Qed.

Lemma reg8_writes_unselected (reg value : Z) (l : list bus_call) :
  selections reg l = 0%nat -> reg8_writes reg value l = 0%nat.
Proof.
  intros Hsel. rewrite <- (app_nil_r l). now rewrite reg8_writes_no_select.
Qed.

Lemma reg8_writes_start (value : Z) (l : list bus_call) :
  selections SYSTEM_MODE_START l = 0%nat ->
  reg8_writes SYSTEM_MODE_START value (start_calls ++ l)
  = if 0x40 =? value then 1%nat else 0%nat.
Proof.
  intros Hsel. unfold start_calls. cbn [app reg8_writes].
  rewrite (reg8_writes_unselected _ _ l Hsel).
  change (bus_call_eqb (select SYSTEM_INTERRUPT_CLEAR) (select SYSTEM_MODE_START))
    with false.
  change (bus_call_eqb (select SYSTEM_MODE_START) (select SYSTEM_MODE_START)) with true.
  change (bus_call_eqb (CallWrite 64) (select SYSTEM_MODE_START)) with false.
  cbn [andb select].
  destruct (64 =? value); destruct l as [| [] ?]; reflexivity.
Qed.

Lemma getDistance_no_mode_start {B : Type} `{I2C B} (fd : Z) (w : World (Traced B)) :
  exists l : list bus_call,
    calls (bus (snd (getDistance fd w))) = calls (bus w) ++ l
    /\ selections SYSTEM_MODE_START l = 0%nat.
Proof.
  destruct (getDistance_calls fd w) as [g [_ Hcalls]].
  destruct (Z.land (uint8 (Z.land g 255)) 1 =? 0).
  - destruct Hcalls as [_ Hlog]. eexists. split; [exact Hlog | reflexivity].
  - destruct Hcalls as (s & h & l & Hlog). eexists. split; [exact Hlog | reflexivity].
Qed.

Lemma main_loop_no_mode_start {B : Type} `{I2C B} (fd : Z) (n : nat) :
  forall (st : Stats) (w : World (Traced B)),
  exists l : list bus_call,
    calls (bus (snd (main_loop fd n st w))) = calls (bus w) ++ l
    /\ selections SYSTEM_MODE_START l = 0%nat.
Proof.
  induction n as [| n IH]; intros st w.
  - exists []. cbn. now rewrite app_nil_r.
  - rewrite main_loop_turn.
    destruct (getDistance_no_mode_start fd w) as (l1 & Hl1 & Hs1).
    assert (Hbus : bus (snd (loop_body fd st w)) = bus (snd (getDistance fd w))).
    { rewrite loop_body_run. destruct (getDistance fd w) as [d w1].
      now destruct (d >? 0). }
    destruct (IH (fst (loop_body fd st w)) (snd (loop_body fd st w))) as (l2 & Hl2 & Hs2).
    exists (l1 ++ l2). split.
    + rewrite Hl2, Hbus, Hl1. now rewrite <- app_assoc.
    + rewrite selections_app, Hs1, Hs2. reflexivity.
Qed.

(** X10: ranging, once started, is never stopped.  Over every bus and
    for any number of turns of the loop, [main] never writes 0x00 to the
    mode-start register and selects that register at most once; when the
    start-up succeeds it writes the start command 0x40 to it exactly
    once. *)
Theorem main_never_stops_ranging :
  forall (B : Type) (HB : I2C B) (setup_result open_result : Z) (n : nat)
         (w : World (Traced B)),
    let run := main setup_result open_result n w in
    exists emitted : list bus_call,
      calls (bus (snd run)) = calls (bus w) ++ emitted
      /\ reg8_writes SYSTEM_MODE_START 0x00 emitted = 0%nat
      /\ (selections SYSTEM_MODE_START emitted <= 1)%nat
      /\ reg8_writes SYSTEM_MODE_START 0x40 emitted
         = if exited (fst run) then 0%nat else 1%nat.
Proof.
  intros B HB setup_result open_result n w run. subst run.
  rewrite main_run.
  destruct (setup_result =? -1);
    [exists []; cbn; rewrite app_nil_r; repeat split; lia |].
  destruct (open_result =? -1);
    [exists []; cbn; rewrite app_nil_r; repeat split; lia |].
  match goal with |- context [initSensor open_result ?w0] => set (w0' := w0) end.
  destruct (initSensor_full open_result w0') as (r1 & r2 & rs & Hfull).
  cbn zeta in Hfull. destruct Hfull as (_ & _ & Hinit & _).
  destruct (initSensor open_result w0') as [rc w1]. cbn [fst snd] in Hinit.
  subst w0'. cbn [bus] in Hinit.
  set (init_calls :=
         [select IDENTIFICATION_MODEL_ID; CallRead r1; CallRead r2] ++
         (if _ =? 60108
          then reset_calls ++ flat_map firmware_poll rs
               ++ (if rc =? 0 then config_calls else [])
          else [])) in Hinit.
  assert (Hsel : selections SYSTEM_MODE_START init_calls = 0%nat).
  { subst init_calls. rewrite selections_app.
    destruct (_ =? 60108); [| reflexivity].
    rewrite !selections_app, selections_polls_other by reflexivity.
    now destruct (rc =? 0). }
  destruct (rc =? 0).
  - destruct (startRanging_traced open_result w1) as [b Hstart]. rewrite Hstart.
    match goal with |- context [main_loop open_result n initial_stats ?w0] =>
      set (w2 := w0) end.
    destruct (main_loop_no_mode_start open_result n initial_stats w2)
      as (l & Hl & Hsl).
    destruct (main_loop open_result n initial_stats w2) as [st w3].
    cbn [fst snd exited] in *. subst w2. cbn [bus calls] in Hl.
    exists (init_calls ++ start_calls ++ l).
    split; [| split; [| split]].
    + rewrite Hl, Hinit. now rewrite <- !app_assoc.
    + rewrite reg8_writes_no_select by exact Hsel.
      now rewrite reg8_writes_start by exact Hsl.
    + rewrite !selections_app, Hsel, Hsl.
      change (selections SYSTEM_MODE_START start_calls) with 1%nat. lia.
    + rewrite reg8_writes_no_select by exact Hsel.
      now rewrite reg8_writes_start by exact Hsl.
  - cbn [fst snd bus exited]. exists init_calls.
    split; [exact Hinit | split; [| split]].
    + now apply reg8_writes_unselected.
    + rewrite Hsel. lia.
    + now apply reg8_writes_unselected.
Qed.

Section LoopEffects.

Context {B : Type} `{I2C B}.

Implicit Types (w : World B) (st : Stats) (fd : Z) (n : nat).

Lemma loop_body_slept fd st w :
  slept (snd (loop_body fd st w)) = slept w + 50000.
Proof.
  rewrite loop_body_run. pose proof (getDistance_slept fd w) as Hs.
  destruct (getDistance fd w) as [d w1]. cbn [snd] in Hs.
  destruct (d >? 0); cbn [snd slept]; lia.
Qed.

Lemma sample_line_header (d c : Z) :
  List.filter is_sample (sample_line d c) = [P_sample c d].
Proof.
  unfold sample_line. cbn [app List.filter is_sample].
  rewrite !List.filter_app.
  assert (Hbars : forall k, List.filter is_sample (List.repeat P_bar k) = [])
    by (induction k; [reflexivity | assumption]).
  rewrite Hbars. cbn [app].
  destruct (d <? 100); [reflexivity |]. now destruct (d <? 300).
Qed.

(** The sample headers a turn prints: one for an accepted distance,
    numbered with the incremented counter, none otherwise. *)
Lemma loop_body_headers fd st w :
  exists out : list printf_call,
    console (snd (loop_body fd st w)) = console w ++ out
    /\ List.filter is_sample out
       = if fst (getDistance fd w) >? 0
         then [P_sample (sint32 (count st + 1)) (fst (getDistance fd w))]
         else [].
Proof.
  rewrite loop_body_run. pose proof (getDistance_console fd w) as Hc.
  destruct (getDistance fd w) as [d w1]. cbn [fst snd] in *.
  destruct (d >? 0); cbn [snd console]; rewrite Hc; eexists; split;
    try reflexivity.
  - apply sample_line_header.
  - now destruct (Z.rem _ 20 =? 0).
Qed.

Lemma main_loop_headers fd n :
  forall st w,
    0 <= count st -> count st + Z.of_nat n <= INT_MAX ->
    exists out : list printf_call,
      console (snd (main_loop fd n st w)) = console w ++ out
      /\ List.filter is_sample out
         = numbered (count st) (accepted (readings fd n st w)).
Proof.
  induction n as [| n IH]; intros st w Hc Hmax.
  - exists []. cbn. now rewrite app_nil_r.
  - rewrite main_loop_turn, readings_turn.
    destruct (loop_body_headers fd st w) as (out1 & Hout1 & Hhead).
    pose proof (loop_body_stats fd st w) as Hst. cbn zeta in Hst.
    set (d := fst (getDistance fd w)) in *.
    set (st1 := fst (loop_body fd st w)) in *.
    set (w1 := snd (loop_body fd st w)) in *.
    assert (Hcount : count st1 = if d >? 0 then count st + 1 else count st).
    { rewrite Hst. destruct (d >? 0); cbn [count]; [| reflexivity].
      apply sint32_small. unfold INT_MAX in *. lia. }
    destruct (IH st1 w1) as (out2 & Hout2 & Hrest).
    { rewrite Hcount. destruct (d >? 0); lia. }
    { rewrite Hcount. destruct (d >? 0); lia. }
    exists (out1 ++ out2). split.
    + rewrite Hout2, Hout1. now rewrite <- app_assoc.
    + rewrite List.filter_app, Hhead, Hrest, Hcount.
      unfold accepted. cbn [List.filter].
      destruct (d >? 0); cbn [numbered app]; [| reflexivity].
      rewrite sint32_small by (unfold INT_MAX in *; lia). reflexivity.
Qed.

End LoopEffects.

(** X11: every turn of the loop sleeps once, for 50 ms, whether it got a
    sample or not: after [n] turns, from any accumulators and over any
    bus, the loop has spent [50 n] ms in [usleep]. *)
Theorem main_loop_period :
  forall (B : Type) (HB : I2C B) (fd : Z) (n : nat) (st : Stats) (w : World B),
    slept (snd (main_loop fd n st w)) = slept w + 50000 * Z.of_nat n.
Proof.
  intros B HB fd n. induction n as [| n IH]; intros st w.
  - cbn. lia.
  - rewrite main_loop_turn, IH, loop_body_slept. lia.
Qed.

(** X12: the loop prints one sample line for every accepted distance
    and none for a turn without sample; the lines come in the order of
    the readings and are numbered 1, 2, 3, ... without gap (for up to
    [INT_MAX] turns). *)
Theorem sample_lines_numbered :
  forall (B : Type) (HB : I2C B) (fd : Z) (n : nat) (w : World B),
    Z.of_nat n <= INT_MAX ->
    List.filter is_sample (printed_by (main_loop fd n initial_stats) w)
    = numbered 0 (accepted (readings fd n initial_stats w)).
Proof.
  intros B HB fd n w Hn.
  destruct (main_loop_headers fd n initial_stats w) as (out & Hout & Hhead);
    [cbn; lia | cbn; lia |].
  rewrite (printed_by_app _ _ out Hout). exact Hhead.
Qed.

Lemma sample_lines_numbered_witness :
  Z.of_nat 3 <= INT_MAX
  /\ List.filter is_sample
       (printed_by (main_loop 3 3 initial_stats)
          (script_world (sample_answers 1 0 50 ++ idle_answers 0
                           ++ sample_answers 1 0 400)))
     = [P_sample 1 50; P_sample 2 400].
Proof.
  assert (Hn : Z.of_nat 3 <= INT_MAX) by (vm_compute; discriminate).
  split; [exact Hn |].
  rewrite (sample_lines_numbered (Traced Script) _ 3 3
             (script_world (sample_answers 1 0 50 ++ idle_answers 0
                              ++ sample_answers 1 0 400)) Hn).
  reflexivity.
Defined.

(** ** Minimum and maximum *)

Lemma minimum_lower (d : Z) (ds : list Z) (e : Z) :
  List.In e (d :: ds) -> minimum d ds <= e.
Proof.
  revert d. induction ds as [| f ds IH]; intros d [<- | Hin]; cbn [minimum].
  - lia.
  - contradiction.
  - lia.
  - specialize (IH f Hin). lia.
Qed.

Lemma maximum_upper (d : Z) (ds : list Z) (e : Z) :
  List.In e (d :: ds) -> e <= maximum d ds.
Proof.
  revert d. induction ds as [| f ds IH]; intros d [<- | Hin]; cbn [maximum].
  - lia.
  - contradiction.
  - lia.
  - specialize (IH f Hin). lia.
Qed.

Lemma minimum_attained (d : Z) (ds : list Z) : List.In (minimum d ds) (d :: ds).
Proof.
  revert d. induction ds as [| f ds IH]; intros d; cbn [minimum].
  - now left.
  - destruct (Z.min_spec d (minimum f ds)) as [[_ ->] | [_ ->]];
      [now left | right; apply IH].
Qed.

Lemma maximum_attained (d : Z) (ds : list Z) : List.In (maximum d ds) (d :: ds).
Proof.
  revert d. induction ds as [| f ds IH]; intros d; cbn [maximum].
  - now left.
  - destruct (Z.max_spec d (maximum f ds)) as [[_ ->] | [_ ->]];
      [right; apply IH | now left].
Qed.

(** X13: after any number of turns of the loop, over any bus,
    [min_dist] and [max_dist] bound every accepted distance from below
    and from above and, once a sample has been accepted, are themselves
    accepted distances, so that [0 < min_dist <= max_dist < 8000]; before
    that they are 9999 and 0. *)
Theorem min_max_bound_accepted :
  forall (B : Type) (HB : I2C B) (fd : Z) (n : nat) (w : World B),
    let st := fst (main_loop fd n initial_stats w) in
    let ds := accepted (readings fd n initial_stats w) in
    (forall d, List.In d ds -> min_dist st <= d <= max_dist st)
    /\ (if (0 <? length ds)%nat
        then List.In (min_dist st) ds /\ List.In (max_dist st) ds
             /\ 0 < min_dist st <= max_dist st /\ max_dist st < 8000
        else min_dist st = 9999 /\ max_dist st = 0).
Proof.
  intros B HB fd n w st ds.
  destruct (main_loop_stats_from fd n initial_stats w)
    as (_ & _ & _ & Hmin & Hmax); try reflexivity.
  fold st in Hmin, Hmax. fold ds in Hmin, Hmax.
  cbn [initial_stats min_dist max_dist] in Hmin, Hmax.
  pose proof (readings_range fd n initial_stats w) as Hrange.
  assert (Hacc : forall d, List.In d ds -> 0 < d < 8000).
  { intros d Hd. subst ds. unfold accepted in Hd.
    apply List.filter_In in Hd as [Hin Hpos].
    rewrite List.Forall_forall in Hrange. specialize (Hrange d Hin).
    apply Z.gtb_lt in Hpos. lia. }
  destruct ds as [| d rest]; cbn [length Nat.ltb Nat.leb].
  - split; [intros d [] | now split].
  - pose proof (minimum_attained d rest) as Hmin_in.
    pose proof (maximum_attained d rest) as Hmax_in.
    pose proof (Hacc _ Hmin_in) as Hmin_range.
    pose proof (Hacc _ Hmax_in) as Hmax_range.
    assert (Hmin' : min_dist st = minimum d rest) by lia.
    assert (Hmax' : max_dist st = maximum d rest) by lia.
    rewrite Hmin', Hmax'. split.
    + intros e He. pose proof (minimum_lower d rest e He).
      pose proof (maximum_upper d rest e He). lia.
    + repeat split; try assumption; try lia.
      pose proof (minimum_lower d rest d (or_introl eq_refl)).
      pose proof (maximum_upper d rest d (or_introl eq_refl)). lia.
Qed.

Lemma min_max_bound_accepted_witness :
  min_dist (fst (main_loop 3 2 initial_stats
                   (script_world (sample_answers 1 0 50 ++ sample_answers 1 0 400))))
  <= 400
  <= max_dist (fst (main_loop 3 2 initial_stats
                      (script_world (sample_answers 1 0 50 ++ sample_answers 1 0 400)))).
Proof.
  pose proof (proj1 (min_max_bound_accepted (Traced Script) _ 3 2
                       (script_world (sample_answers 1 0 50 ++ sample_answers 1 0 400))))
    as Hbound.
  cbn zeta in Hbound. refine (Hbound 400 _).
  vm_compute. right. left. reflexivity.
Defined.

(** ** The shim and the start-up on a register file *)

Section OnRegisterFile.

Implicit Types (fd reg value p sl : Z) (m : gmap Z Z) (con : list printf_call).

Lemma writeReg8_regfile fd reg value p m con sl :
  0 <= reg < 65536 ->
  writeReg8 fd reg value (mkWorld (mkRegFile p m) con sl)
  = (tt, mkWorld (mkRegFile (uint16 (reg + 1)) (<[reg := value mod 256]> m)) con sl).
Proof.
  intros Hreg.
  unfold writeReg8, bind, i2cWriteReg8, i2cWrite. cbn.
  rewrite (uint16_small reg), regfile_pointer_of by assumption.
  unfold uint8. now rewrite Z.mod_mod by lia.
Qed.

Lemma writeReg16_regfile fd reg value p m con sl :
  0 <= reg < 65536 ->
  writeReg16 fd reg value (mkWorld (mkRegFile p m) con sl)
  = (tt, mkWorld (mkRegFile (uint16 (uint16 (reg + 1) + 1))
                    (<[uint16 (reg + 1) := value mod 256]>
                       (<[reg := (value mod 65536 / 256) mod 256]> m)))
                 con sl).
Proof.
  intros Hreg.
  unfold writeReg16, bind, i2cWriteReg8, i2cWrite. cbn.
  rewrite (uint16_small reg), regfile_pointer_of by assumption.
  rewrite !land_255, shiftr_8. unfold uint8, uint16. rewrite !Z.mod_mod by lia.
  replace (value mod 65536 mod 256) with (value mod 256); [reflexivity |].
  symmetry. apply Z.mod_mod_divide. now exists 256.
Qed.

Lemma readReg8_regfile fd reg p m con sl :
  0 <= reg < 65536 ->
  readReg8 fd reg (mkWorld (mkRegFile p m) con sl)
  = (default 0 (m !! reg) mod 256,
     mkWorld (mkRegFile (uint16 (reg + 1)) m) con sl).
Proof.
  intros Hreg.
  unfold readReg8, bind, i2cWriteReg8, i2cRead, ret. cbn.
  rewrite (uint16_small reg), regfile_pointer_of, uint8_byte by assumption.
  reflexivity.
Qed.

Lemma readReg16_regfile fd reg p m con sl :
  0 <= reg < 65536 ->
  readReg16 fd reg (mkWorld (mkRegFile p m) con sl)
  = ((default 0 (m !! reg) mod 256) * 256
     + default 0 (m !! uint16 (reg + 1)) mod 256,
     mkWorld (mkRegFile (uint16 (uint16 (reg + 1) + 1)) m) con sl).
Proof.
  intros Hreg.
  unfold readReg16, bind, i2cWriteReg8, i2cRead, ret. cbn.
  rewrite (uint16_small reg), regfile_pointer_of, !uint8_byte by assumption.
  pose proof (Z.mod_pos_bound (default 0 (m !! reg)) 256).
  pose proof (Z.mod_pos_bound (default 0 (m !! uint16 (reg + 1))) 256).
  rewrite lor_shiftl_8 by lia. now rewrite uint16_small by lia.
Qed.

End OnRegisterFile.

(** X14: on a register file, [writeReg16] of a 16-bit [value] to
    register [reg] stores the high byte in cell [reg] and the low byte in
    the next cell (cell 0 after cell 0xFFFF) and changes no other cell. *)
Theorem writeReg16_register_file_cells :
  forall (fd reg value : Z) (rf : World RegFile),
    0 <= reg < 65536 ->
    0 <= value < 65536 ->
    cells (bus (snd (writeReg16 fd reg value rf)))
    = <[(reg + 1) mod 65536 := value mod 256]> (<[reg := value / 256]> (cells (bus rf)))
    /\ console (snd (writeReg16 fd reg value rf)) = console rf
    /\ slept (snd (writeReg16 fd reg value rf)) = slept rf.
Proof.
  intros fd reg value [[p m] con sl] Hreg Hvalue.
  rewrite writeReg16_regfile by assumption. cbn [snd bus cells console slept].
  rewrite (Z.mod_small value 65536) by assumption.
  rewrite (Z.mod_small (value / 256)) by
    (split; [apply Z.div_pos; lia | apply Z.div_lt_upper_bound; lia]).
  repeat split.
Qed.

Lemma writeReg16_register_file_cells_witness :
  0 <= 0x005E < 65536 /\ 0 <= 0x00D6 < 65536
  /\ cells (bus (snd (writeReg16 3 0x005E 0x00D6 (fresh (mkRegFile 0 ∅)))))
     = <[0x005F := 0xD6]> (<[0x005E := 0x00]> ∅).
Proof.
  assert (Hreg : 0 <= 0x005E < 65536) by lia.
  assert (Hvalue : 0 <= 0x00D6 < 65536) by lia.
  split; [exact Hreg | split; [exact Hvalue |]].
  exact (proj1 (writeReg16_register_file_cells 3 0x005E 0x00D6
                  (fresh (mkRegFile 0 ∅)) Hreg Hvalue)).
Defined.

(** X15: on a register file that holds the model ID 0xEACC in cells
    0x010F and 0x0110 and a firmware status with bit 0 set, [initSensor]
    succeeds at the first poll: it returns 0 after the 20 ms of the reset,
    leaves 1 in the soft-reset register, the configuration values in
    their registers (the two 16-bit timeouts as high byte 0x00 and low
    byte 0xD6 in consecutive cells) and 1 in the interrupt-clear register,
    and changes no other cell. *)
Theorem initSensor_configures_register_file :
  forall (fd p sl s : Z) (m : gmap Z Z) (con : list printf_call),
    m !! 0x010F = Some 0xEA ->
    m !! 0x0110 = Some 0xCC ->
    m !! 0x0010 = Some s ->
    Z.land s 0x01 <> 0 ->
    initSensor fd (mkWorld (mkRegFile p m) con sl)
    = (0,
       mkWorld
         (mkRegFile 0x0087
            (<[SYSTEM_INTERRUPT_CLEAR := 0x01]>
            (<[SYSTEM_INTERRUPT_CONFIG_GPIO := 0x01]>
            (<[RANGE_CONFIG_TIMEOUT_MACROP_B + 1 := 0xD6]>
            (<[RANGE_CONFIG_TIMEOUT_MACROP_B := 0x00]>
            (<[RANGE_CONFIG_TIMEOUT_MACROP_A + 1 := 0xD6]>
            (<[RANGE_CONFIG_TIMEOUT_MACROP_A := 0x00]>
            (<[RANGE_CONFIG_VALID_PHASE_HIGH := 0xC8]>
            (<[RANGE_CONFIG_VCSEL_PERIOD_B := 0x0D]>
            (<[RANGE_CONFIG_VCSEL_PERIOD_A := 0x09]>
            (<[SOFT_RESET := 0x01]> m)))))))))))
         (con ++ [P_init_start; P_sensor_found 0xEACC; P_wait_firmware;
                  P_firmware_loaded 1; P_sensor_ready])
         (sl + 20000)).
Proof.
  intros fd p sl s m con Hhigh Hlow Hstatus Hready.
  unfold initSensor. unfold bind at 1. cbn [printf bus console slept].
  unfold bind at 1.
  rewrite readReg16_regfile by (unfold IDENTIFICATION_MODEL_ID; lia).
  change (uint16 (IDENTIFICATION_MODEL_ID + 1)) with 0x0110.
  unfold IDENTIFICATION_MODEL_ID. rewrite Hhigh, Hlow.
  change (default 0 (Some 234) mod 256 * 256 + default 0 (Some 204) mod 256)
    with 0xEACC.
  change (60108 =? 60108) with true. cbv iota.
  unfold bind at 1. cbn [printf bus console slept].
  unfold bind at 1. rewrite writeReg8_regfile by (unfold SOFT_RESET; lia).
  unfold bind at 1. cbn [usleep bus console slept].
  unfold bind at 1. rewrite writeReg8_regfile by (unfold SOFT_RESET; lia).
  unfold bind at 1. cbn [usleep bus console slept].
  unfold bind at 1. cbn [printf bus console slept].
  unfold bind at 1.
  change (await_firmware fd 100 0) with (await_firmware fd (S 99) 0).
  cbn [await_firmware]. unfold bind at 1.
  rewrite readReg8_regfile by (unfold FIRMWARE_SYSTEM_STATUS; lia).
  rewrite insert_insert_eq.
  rewrite lookup_insert_ne by (unfold SOFT_RESET, FIRMWARE_SYSTEM_STATUS; lia).
  unfold FIRMWARE_SYSTEM_STATUS at 1. rewrite Hstatus.
  change (default 0 (Some s)) with s.
  rewrite land_1, Z.mod_mod_divide by (now exists 128). rewrite <- land_1.
  destruct (Z.eqb_spec (Z.land s 1) 0) as [Hz | _]; [contradiction |].
  cbn [negb]. unfold bind at 1. cbn [printf ret bus console slept].
  change (0 >=? 100) with false. cbv iota.
  do 3 (unfold bind at 1;
        rewrite writeReg8_regfile
          by (unfold RANGE_CONFIG_VCSEL_PERIOD_A, RANGE_CONFIG_VCSEL_PERIOD_B,
                RANGE_CONFIG_VALID_PHASE_HIGH; lia)).
  do 2 (unfold bind at 1;
        rewrite writeReg16_regfile
          by (unfold RANGE_CONFIG_TIMEOUT_MACROP_A, RANGE_CONFIG_TIMEOUT_MACROP_B; lia)).
  do 2 (unfold bind at 1;
        rewrite writeReg8_regfile
          by (unfold SYSTEM_INTERRUPT_CONFIG_GPIO, SYSTEM_INTERRUPT_CLEAR; lia)).
  unfold bind at 1. cbn [printf ret bus console slept].
  rewrite <- !app_assoc. cbn [app]. unfold ret.
  replace (sl + 10000 + 10000) with (sl + 20000) by lia.
  reflexivity.
Qed.

Lemma initSensor_configures_register_file_witness :
  fst (initSensor 3
         (fresh (mkRegFile 0
                   (<[0x010F := 0xEA]> (<[0x0110 := 0xCC]> (<[0x0010 := 0x03]> ∅))))))
  = 0.
Proof.
  assert (Hready : Z.land 0x03 0x01 <> 0) by (vm_compute; discriminate).
  set (m := <[0x010F := 0xEA]> (<[0x0110 := 0xCC]> (<[0x0010 := 0x03]> (∅ : gmap Z Z)))).
  assert (Hhigh : m !! 0x010F = Some 0xEA) by (vm_compute; reflexivity).
  assert (Hlow : m !! 0x0110 = Some 0xCC) by (vm_compute; reflexivity).
  assert (Hstatus : m !! 0x0010 = Some 0x03) by (vm_compute; reflexivity).
  unfold fresh.
  rewrite (initSensor_configures_register_file 3 0 0 0x03 m [] Hhigh Hlow Hstatus Hready).
  reflexivity.
Defined.
